(** * My Personal Terminal: a shallow embedding of [terminal.py]

    The development follows the source file top to bottom: the string
    helpers Python supplies ([str.strip], [str.split], ...), the digest
    behind [shash], the safe calculator, the files on disk and finally the
    handlers of the [MyPersonalTerminal] command loop.

    Conventions.
    - A Python [str] is a Rocq [string]; a character is read as the code
      point U+0000..U+00FF it denotes (Latin-1).
    - A prompt ([input]) consumes the next line of a list of lines the
      operator has typed so far; when the list is empty the program is
      blocked at that prompt.
    - A Python exception is a value of [exn]; a function that may raise
      returns a [result]. *)

From Stdlib Require Import ZArith Lia Bool List Ascii String.
From Stdlib Require Import PrimFloat SpecFloat FloatOps.
From stdpp Require Import gmap strings list fin_maps.
Import ListNotations.

Local Open Scope Z_scope.

(** ** Python strings *)

Module PyStr.

(** [str.isspace] on one character: the ASCII table of CPython
    ([_Py_ascii_whitespace]: TAB..CR, FS..US and SPACE) and, above it, NEL
    (U+0085) and NBSP (U+00A0). *)
Definition isspace (c : ascii) : bool :=
  let n := N_of_ascii c in
  (((9 <=? n) && (n <=? 13)) || ((28 <=? n) && (n <=? 32))
   || (n =? 133) || (n =? 160))%N.

(** [str.isdigit] on one character: Numeric_Type Decimal or Digit, which in
    this range is 0..9 and the superscripts U+00B2, U+00B3 and U+00B9. *)
Definition isdigit_char (c : ascii) : bool :=
  let n := N_of_ascii c in
  (((48 <=? n) && (n <=? 57)) || (n =? 178) || (n =? 179) || (n =? 185))%N.

(** The characters 0..9 alone ([str.isascii] and [str.isdigit]). *)
Definition isdecimal_ascii_char (c : ascii) : bool :=
  let n := N_of_ascii c in ((48 <=? n) && (n <=? 57))%N.

Fixpoint forallb_str (p : ascii -> bool) (s : string) : bool :=
  match s with
  | EmptyString => true
  | String c s' => p c && forallb_str p s'
  end.

(** [s.isdigit()]: every character is a digit and there is at least one. *)
Definition isdigit (s : string) : bool :=
  match s with
  | EmptyString => false
  | _ => forallb_str isdigit_char s
  end.

Definition is_empty (s : string) : bool :=
  match s with EmptyString => true | _ => false end.

Fixpoint lstrip (s : string) : string :=
  match s with
  | EmptyString => EmptyString
  | String c s' => if isspace c then lstrip s' else s
  end.

Fixpoint rstrip (s : string) : string :=
  match s with
  | EmptyString => EmptyString
  | String c s' =>
      let r := rstrip s' in
      if isspace c && is_empty r then EmptyString else String c r
  end.

Definition strip (s : string) : string := rstrip (lstrip s).

(** [s.split(maxsplit=n)] with no separator, after CPython's
    [split_whitespace]: runs of whitespace separate the words; once [n]
    words are out, what is left is skipped over its leading whitespace and
    kept whole.  [None] is the default, no limit. [cur] is the word being
    read. *)
Definition dec_limit (n : option nat) : option nat :=
  match n with
  | Some (S k) => Some k
  | other => other
  end.

Definition limit_reached (n : option nat) : bool :=
  match n with Some O => true | _ => false end.

Fixpoint split_aux (n : option nat) (cur : option string) (s : string)
  : list string :=
  match s with
  | EmptyString =>
      match cur with Some w => [w] | None => [] end
  | String c s' =>
      match cur with
      | None =>
          if isspace c then split_aux n None s'
          else if limit_reached n then [s]
          else split_aux (dec_limit n) (Some (String c EmptyString)) s'
      | Some w =>
          if isspace c then w :: split_aux n None s'
          else split_aux n (Some (w ++ String c EmptyString)%string) s'
      end
  end.

Definition split_max (n : option nat) (s : string) : list string :=
  split_aux n None s.

Definition split (s : string) : list string := split_max None s.

(** [sep.join(parts)]. *)
Definition join (sep : string) (parts : list string) : string :=
  String.concat sep parts.

(** [s.split(sep, 1)] for a one-character separator that occurs in [s]:
    the text before the first occurrence and the text after it. *)
Fixpoint split_once (sep : ascii) (s : string) : option (string * string) :=
  match s with
  | EmptyString => None
  | String c s' =>
      if Ascii.eqb c sep then Some (EmptyString, s')
      else match split_once sep s' with
           | Some (a, b) => Some (String c a, b)
           | None => None
           end
  end.

(** [str.lower] on one character: A..Z and the Latin-1 capitals U+00C0..
    U+00DE (the multiplication sign U+00D7 apart) move up by 32. *)
Definition lower_char (c : ascii) : ascii :=
  let n := N_of_ascii c in
  if (((65 <=? n) && (n <=? 90))
      || ((192 <=? n) && (n <=? 222) && negb (n =? 215)))%N
  then ascii_of_N (n + 32) else c.

Fixpoint lower (s : string) : string :=
  match s with
  | EmptyString => EmptyString
  | String c s' => String (lower_char c) (lower s')
  end.

Definition len (s : string) : Z := Z.of_nat (String.length s).

End PyStr.

(** [normalize_title(title)]: ["_".join(title.strip().split())]. *)
Definition normalize_title (title : string) : string :=
  PyStr.join "_" (PyStr.split (PyStr.strip title)).

(** ** [hashlib.sha256]: the digest behind [shash] (FIPS 180-4) *)

Module Sha256.

Definition w32 (x : Z) : Z := Z.land x 0xffffffff.
Definition add32 (x y : Z) : Z := w32 (x + y).
Definition rotr (n x : Z) : Z :=
  Z.lor (Z.shiftr x n) (w32 (Z.shiftl x (32 - n))).

Definition Ch (x y z : Z) : Z :=
  Z.lxor (Z.land x y) (Z.land (Z.lxor x 0xffffffff) z).
Definition Maj (x y z : Z) : Z :=
  Z.lxor (Z.lxor (Z.land x y) (Z.land x z)) (Z.land y z).
Definition Sigma0 (x : Z) : Z :=
  Z.lxor (Z.lxor (rotr 2 x) (rotr 13 x)) (rotr 22 x).
Definition Sigma1 (x : Z) : Z :=
  Z.lxor (Z.lxor (rotr 6 x) (rotr 11 x)) (rotr 25 x).
Definition sigma0 (x : Z) : Z :=
  Z.lxor (Z.lxor (rotr 7 x) (rotr 18 x)) (Z.shiftr x 3).
Definition sigma1 (x : Z) : Z :=
  Z.lxor (Z.lxor (rotr 17 x) (rotr 19 x)) (Z.shiftr x 10).

(** The constants of the standard are fractional parts of roots of the
    first primes, on 32 bits: of the cube roots of the first 64 for the
    round constants [K], of the square roots of the first 8 for the initial
    hash value [H0]. *)
Definition is_prime (n : nat) : bool :=
  forallb (fun d => negb (Nat.eqb (n mod d) 0)) (seq 2 (n - 2)).

Definition primes : list Z :=
  map Z.of_nat (List.filter is_prime (seq 2 310)).

(** The integer cube root, one bit at a time from bit [bits - 1] down. *)
Definition cube_root_step (n : Z) (r : Z) (b : nat) : Z :=
  let c := r + Z.shiftl 1 (Z.of_nat b) in
  if c * c * c <=? n then c else r.

Definition cube_root (bits : nat) (n : Z) : Z :=
  fold_left (cube_root_step n) (rev (seq 0 bits)) 0.

Definition K : list Z :=
  map (fun p => w32 (cube_root 36 (Z.shiftl p 96))) primes.

Definition H0 : list Z :=
  map (fun p => w32 (Z.sqrt (Z.shiftl p 64))) (firstn 8 primes).

(** [text.encode("utf-8")] for code points below U+0100. *)
Definition utf8_char (c : ascii) : list Z :=
  let n := Z.of_N (N_of_ascii c) in
  if n <? 128 then [n] else [0xC0 + Z.shiftr n 6; 0x80 + Z.land n 0x3F].

Fixpoint utf8 (s : string) : list Z :=
  match s with
  | EmptyString => []
  | String c s' => utf8_char c ++ utf8 s'
  end.

(** Padding: the bit 1, zeros up to 56 modulo 64 bytes, and the length of
    the message in bits on 8 bytes, most significant first. *)
Definition be_bytes (n : nat) (x : Z) : list Z :=
  map (fun i => Z.land (Z.shiftr x (8 * Z.of_nat i)) 0xff) (rev (seq 0 n)).

Definition pad (msg : list Z) : list Z :=
  let l := Z.of_nat (List.length msg) in
  let k := (55 - l) mod 64 in
  msg ++ [0x80] ++ repeat 0 (Z.to_nat k) ++ be_bytes 8 (8 * l).

Fixpoint words (bs : list Z) : list Z :=
  match bs with
  | a :: b :: c :: d :: rest =>
      (Z.shiftl a 24 + Z.shiftl b 16 + Z.shiftl c 8 + d) :: words rest
  | _ => []
  end.

(** The message schedule, most recent word first: [sched] holds
    W(t-1), W(t-2), ... and grows by [n] words. *)
Fixpoint schedule (n : nat) (sched : list Z) : list Z :=
  match n with
  | O => sched
  | S n' =>
      let w := add32 (add32 (sigma1 (nth 1 sched 0)) (nth 6 sched 0))
                     (add32 (sigma0 (nth 14 sched 0)) (nth 15 sched 0)) in
      schedule n' (w :: sched)
  end.

Definition round (st : list Z) (kw : Z * Z) : list Z :=
  match st with
  | [a; b; c; d; e; f; g; h] =>
      let t1 := add32 (add32 (add32 h (Sigma1 e)) (Ch e f g))
                      (add32 (fst kw) (snd kw)) in
      let t2 := add32 (Sigma0 a) (Maj a b c) in
      [add32 t1 t2; a; b; c; add32 d t1; e; f; g]
  | _ => st
  end.

Definition compress (h : list Z) (block : list Z) : list Z :=
  let w := rev (schedule 48 (rev block)) in
  let st := fold_left round (combine K w) h in
  map (fun p => add32 (fst p) (snd p)) (combine h st).

Fixpoint blocks (fuel : nat) (ws : list Z) (h : list Z) : list Z :=
  match fuel, ws with
  | S fuel', _ :: _ => blocks fuel' (skipn 16 ws) (compress h (firstn 16 ws))
  | _, _ => h
  end.

Definition digest (msg : list Z) : list Z :=
  let ws := words (pad msg) in
  blocks (List.length ws) ws H0.

Definition hex_digit (x : Z) : ascii :=
  ascii_of_N (Z.to_N (if x <? 10 then 48 + x else 87 + x)).

Definition hex32 (x : Z) : string :=
  fold_right (fun i acc => String (hex_digit (Z.land (Z.shiftr x (4 * Z.of_nat i)) 0xf)) acc)
             EmptyString (rev (seq 0 8)).

Definition hexdigest (msg : list Z) : string :=
  String.concat "" (map hex32 (digest msg)).

End Sha256.

(** [shash(text)]: [hashlib.sha256(text.encode("utf-8")).hexdigest()]. *)
Definition shash (text : string) : string :=
  Sha256.hexdigest (Sha256.utf8 text).

(** ** Exceptions and results *)

(** The exceptions the program can meet.  [ValueError] carries the message
    the source gives it; the exceptions of the runtime carry none. *)
Inductive exn : Type :=
| ValueError (msg : string)
| ZeroDivisionError
| OverflowError
| TypeError
| SyntaxError
| JSONDecodeError
| UnicodeDecodeError
| FileNotFoundError
| NotADirectoryError
| IsADirectoryError
| FileExistsError
| DirectoryNotEmpty
| KeyError.

Inductive result (A : Type) : Type :=
| Ok (a : A)
| Raise (e : exn).
Arguments Ok {A} a.
Arguments Raise {A} e.

Definition bind {A B : Type} (r : result A) (k : A -> result B) : result B :=
  match r with
  | Ok a => k a
  | Raise e => Raise e
  end.

(** [try: body  except Exception: handler]. *)
Definition try_except {A : Type} (body : result A) (handler : exn -> result A)
  : result A :=
  match body with
  | Ok a => Ok a
  | Raise e => handler e
  end.

Declare Scope py_scope.
Delimit Scope py_scope with py.
Notation "'let*' x ':=' c1 'in' c2" := (bind c1 (fun x => c2))
  (at level 10, x name, c1 at level 100, c2 at level 200) : py_scope.

Definition is_ok {A : Type} (r : result A) : bool :=
  match r with Ok _ => true | Raise _ => false end.

(** ** The safe calculator *)

Module Calc.

Local Open Scope py_scope.

(** *** The syntax trees of [ast.parse(expr, mode="eval")] *)

(** What a [Constant] node holds.  An imaginary literal such as [1j] is the
    complex number of real part [0.0]. *)
Inductive constant : Type :=
| CInt (z : Z)
| CFloat (f : float)
| CImag (im : float)
| CBool (b : bool)
| CStr (s : string)
| CBytes (s : string)
| CNone
| CEllipsis.

Inductive operator : Type :=
| Add | Sub | Mult | MatMult | Div | Mod | Pow
| LShift | RShift | BitOr | BitXor | BitAnd | FloorDiv.

Inductive unaryop : Type := Invert | Not | UAdd | USub.

Inductive boolop : Type := And | Or.

Inductive cmpop : Type :=
| Eq | NotEq | Lt | LtE | Gt | GtE | Is | IsNot | In | NotIn.

#[warnings="-register-all"]
Inductive expr : Type :=
| Constant (value : constant)
| BinOp (left : expr) (op : operator) (right : expr)
| UnaryOp (op : unaryop) (operand : expr)
| BoolOp (op : boolop) (values : list expr)
| Compare (left : expr) (ops : list cmpop) (comparators : list expr)
| Call (func : expr) (args : list expr)
| Name (id : string)
| Attribute (value : expr) (attr : string)
| Subscript (value : expr) (slice : expr)
| IfExp (test : expr) (body : expr) (orelse : expr)
| Lambda (body : expr)
| Tuple (elts : list expr)
| ListExpr (elts : list expr)
| JoinedStr (values : list expr).

(** *** Python numbers *)

(** The values [_eval] can return: [int], [bool], [float] and [complex]. *)
Inductive value : Type :=
| VInt (z : Z)
| VBool (b : bool)
| VFloat (f : float)
| VComplex (re im : float).

Definition is_complex (v : value) : bool :=
  match v with VComplex _ _ => true | _ => false end.

Definition is_float (v : value) : bool :=
  match v with VFloat _ => true | _ => false end.

(** [int] and [bool] operands as integers ([True] is 1). *)
Definition as_int (v : value) : option Z :=
  match v with
  | VInt z => Some z
  | VBool b => Some (if b then 1 else 0)
  | _ => None
  end.

(** [float(n)] for an integer: the nearest binary64 number, ties to even;
    [OverflowError] beyond the largest finite one. *)
Definition int_to_float (z : Z) : result float :=
  match binary_normalize prec emax z 0 false with
  | S754_infinity _ => Raise OverflowError
  | sf => Ok (SF2Prim sf)
  end.

(** [a / b] on integers ([long_true_divide]): the quotient correctly
    rounded to binary64. *)
Definition int_truediv (a b : Z) : result float :=
  if b =? 0 then Raise ZeroDivisionError
  else
    let neg := xorb (a <? 0) (b <? 0) in
    if a =? 0 then Ok (SF2Prim (S754_zero neg))
    else
      let '(q, e, loc) := SFdiv_core_binary prec emax (Z.abs a) 0 (Z.abs b) 0 in
      match binary_round_aux prec emax neg q e loc with
      | S754_infinity _ => Raise OverflowError
      | sf => Ok (SF2Prim sf)
      end.

(** The operations the model leaves to the platform: what CPython computes
    through the C library ([fmod], [floor], [pow]) and its [complex]
    arithmetic, and the parser.  The divisor of [float_floordiv] and
    [float_mod] is not zero when they are called. *)
Record runtime : Type := {
  ast_parse : string -> result expr;
  float_floordiv : float -> float -> float;
  float_mod : float -> float -> float;
  float_pow : float -> float -> result value;
  complex_arith : operator -> value -> value -> result value
}.

Section Operators.

Variable rt : runtime.

Definition as_float (v : value) : result float :=
  match v with
  | VFloat f => Ok f
  | VInt z => int_to_float z
  | VBool b => Ok (if b then 1%float else 0%float)
  | VComplex _ _ => Raise TypeError
  end.

Definition float_is_zero (f : float) : bool := PrimFloat.eqb f 0%float.

(** Arithmetic operators ([+ - * / // % **]) on two numbers: [complex] if
    one is, else [float] if one is, else [int]. *)
Definition int_arith (op : operator) (a b : Z) : result value :=
  match op with
  | Add => Ok (VInt (a + b))
  | Sub => Ok (VInt (a - b))
  | Mult => Ok (VInt (a * b))
  | Div => let* f := int_truediv a b in Ok (VFloat f)
  | FloorDiv => if b =? 0 then Raise ZeroDivisionError else Ok (VInt (a / b))
  | Mod => if b =? 0 then Raise ZeroDivisionError else Ok (VInt (a mod b))
  | Pow =>
      if b <? 0
      then let* x := int_to_float a in
           let* y := int_to_float b in
           float_pow rt x y
      else Ok (VInt (a ^ b))
  | _ => Raise TypeError
  end.

Definition float_arith (op : operator) (x y : float) : result value :=
  match op with
  | Add => Ok (VFloat (x + y)%float)
  | Sub => Ok (VFloat (x - y)%float)
  | Mult => Ok (VFloat (x * y)%float)
  | Div =>
      if float_is_zero y then Raise ZeroDivisionError
      else Ok (VFloat (x / y)%float)
  | FloorDiv =>
      if float_is_zero y then Raise ZeroDivisionError
      else Ok (VFloat (float_floordiv rt x y))
  | Mod =>
      if float_is_zero y then Raise ZeroDivisionError
      else Ok (VFloat (float_mod rt x y))
  | Pow => float_pow rt x y
  | _ => Raise TypeError
  end.

Definition arith (op : operator) (x y : value) : result value :=
  if is_complex x || is_complex y then
    match op with
    | FloorDiv | Mod => Raise TypeError
    | _ => complex_arith rt op x y
    end
  else
    match as_int x, as_int y with
    | Some a, Some b => int_arith op a b
    | _, _ =>
        let* fx := as_float x in
        let* fy := as_float y in
        float_arith op fx fy
    end.

(** Bitwise operators ([& | ^]): integers only; on two [bool]s the result
    is a [bool]. *)
Definition bitwise (fz : Z -> Z -> Z) (fb : bool -> bool -> bool)
    (x y : value) : result value :=
  match x, y with
  | VBool a, VBool b => Ok (VBool (fb a b))
  | _, _ =>
      match as_int x, as_int y with
      | Some a, Some b => Ok (VInt (fz a b))
      | _, _ => Raise TypeError
      end
  end.

(** Shifts ([<< >>]): integers only, and the count is not negative. *)
Definition shift (fz : Z -> Z -> Z) (x y : value) : result value :=
  match as_int x, as_int y with
  | Some a, Some b =>
      if b <? 0 then Raise (ValueError "negative shift count")
      else Ok (VInt (fz a b))
  | _, _ => Raise TypeError
  end.

(** The functions of the [operator] module that [SAFE_OPS] names. *)
Definition op_add := arith Add.
Definition op_sub := arith Sub.
Definition op_mul := arith Mult.
Definition op_truediv := arith Div.
Definition op_floordiv := arith FloorDiv.
Definition op_mod := arith Mod.
Definition op_pow := arith Pow.
Definition op_xor := bitwise Z.lxor xorb.
Definition op_and_ := bitwise Z.land andb.
Definition op_or_ := bitwise Z.lor orb.
Definition op_lshift := shift Z.shiftl.
Definition op_rshift := shift Z.shiftr.

Definition op_neg (x : value) : result value :=
  match x with
  | VInt z => Ok (VInt (- z))
  | VBool b => Ok (VInt (if b then -1 else 0))
  | VFloat f => Ok (VFloat (- f)%float)
  | VComplex re im => Ok (VComplex (- re)%float (- im)%float)
  end.

Definition op_pos (x : value) : result value :=
  match x with
  | VBool b => Ok (VInt (if b then 1 else 0))
  | other => Ok other
  end.

(** [SAFE_OPS], read at the operator of a [BinOp] node and at the operator
    of a [UnaryOp] node: [@] and [~], [not] are not among its keys. *)
Definition SAFE_OPS_binary (op : operator)
  : option (value -> value -> result value) :=
  match op with
  | Add => Some op_add
  | Sub => Some op_sub
  | Mult => Some op_mul
  | Div => Some op_truediv
  | FloorDiv => Some op_floordiv
  | Mod => Some op_mod
  | Pow => Some op_pow
  | BitXor => Some op_xor
  | LShift => Some op_lshift
  | RShift => Some op_rshift
  | BitAnd => Some op_and_
  | BitOr => Some op_or_
  | MatMult => None
  end.

Definition SAFE_OPS_unary (op : unaryop) : option (value -> result value) :=
  match op with
  | USub => Some op_neg
  | UAdd => Some op_pos
  | Invert | Not => None
  end.

Definition only_numbers : exn := ValueError "Only numbers allowed.".
Definition unsupported_expression : exn := ValueError "Unsupported expression.".

(** [_eval(node)].  On the interpreters that build [Constant] nodes (3.8 to
    3.13) [isinstance(node, ast.Num)] holds of a [Constant] whose value is
    an [int], a [float] or a [complex] and not a [bool], and [node.n] is
    that value; a [bool] is an [int] for the second test. *)
Fixpoint _eval (node : expr) : result value :=
  match node with
  | Constant c =>
      match c with
      | CInt z => Ok (VInt z)
      | CFloat f => Ok (VFloat f)
      | CImag im => Ok (VComplex 0%float im)
      | CBool b => Ok (VBool b)
      | CStr _ | CBytes _ | CNone | CEllipsis => Raise only_numbers
      end
  | BinOp l op r =>
      match SAFE_OPS_binary op with
      | Some f =>
          let* x := _eval l in
          let* y := _eval r in
          f x y
      | None => Raise unsupported_expression
      end
  | UnaryOp op e =>
      match SAFE_OPS_unary op with
      | Some f => let* x := _eval e in f x
      | None => Raise unsupported_expression
      end
  | _ => Raise unsupported_expression
  end.

(** [safe_eval_expr(expr)]. *)
Definition safe_eval_expr (expr : string) : result value :=
  let* tree := ast_parse rt expr in
  _eval tree.

(** What [do_calc] prints. *)
Inductive printed : Type :=
| PrintUsage
| PrintValue (v : value)
| PrintError (e : exn).

(** [do_calc(arg)]: every exception of the evaluation is caught and
    reported. *)
Definition do_calc (arg : string) : printed :=
  let expr := PyStr.strip arg in
  if PyStr.is_empty expr then PrintUsage
  else match safe_eval_expr expr with
       | Ok v => PrintValue v
       | Raise e => PrintError e
       end.

End Operators.

(** *** The whitelist *)

Definition whitelisted_binary (op : operator) : bool :=
  match op with MatMult => false | _ => true end.

Definition whitelisted_unary (op : unaryop) : bool :=
  match op with UAdd | USub => true | Invert | Not => false end.

(** The constants [_eval] takes for numbers. *)
Definition numeric_constant (c : constant) : bool :=
  match c with
  | CInt _ | CFloat _ | CImag _ | CBool _ => true
  | _ => false
  end.

(** The constants the specification names: [int] and [float] literals. *)
Definition int_or_float_literal (c : constant) : bool :=
  match c with
  | CInt _ | CFloat _ => true
  | _ => false
  end.

(** A tree built from constants satisfying [lit] and whitelisted operators
    only. *)
Fixpoint built_from (lit : constant -> bool) (e : expr) : bool :=
  match e with
  | Constant c => lit c
  | BinOp l op r =>
      whitelisted_binary op && built_from lit l && built_from lit r
  | UnaryOp op x => whitelisted_unary op && built_from lit x
  | _ => false
  end.

Definition supported := built_from numeric_constant.
Definition within_spec_whitelist := built_from int_or_float_literal.

(** [err] is an error an operator of [SAFE_OPS] raised on some operands. *)
Definition operator_error (rt : runtime) (err : exn) : Prop :=
  (exists op f x y, SAFE_OPS_binary rt op = Some f /\ f x y = Raise err)
  \/ (exists op f x, SAFE_OPS_unary op = Some f /\ f x = Raise err).

Definition rejection (err : exn) : Prop :=
  err = unsupported_expression \/ err = only_numbers.

(** A node that is no [Constant], [BinOp] or [UnaryOp]. *)
Definition other_node (e : expr) : bool :=
  match e with
  | Constant _ | BinOp _ _ _ | UnaryOp _ _ => false
  | _ => true
  end.


(** *** Example trees *)

(** The trees of the examples: [(2+3)*4], [7/2], [7//2], [True],
    [__import__('os')] and [1/0 + x]. *)
Definition int_lit (z : Z) : expr := Constant (CInt z).
Definition ex_2_plus_3_times_4 : expr :=
  BinOp (BinOp (int_lit 2) Add (int_lit 3)) Mult (int_lit 4).
Definition ex_7_div_2 : expr := BinOp (int_lit 7) Div (int_lit 2).
Definition ex_7_floordiv_2 : expr := BinOp (int_lit 7) FloorDiv (int_lit 2).
Definition ex_true : expr := Constant (CBool true).
Definition ex_import_os : expr :=
  Call (Name "__import__") [Constant (CStr "os")].
Definition ex_zero_division_first : expr :=
  BinOp (BinOp (int_lit 1) Div (int_lit 0)) Add (Name "x").

End Calc.

(** A runtime for closed examples, which reach none of its fields: its
    parser accepts nothing and its library operations give no number. *)
Definition bare_runtime : Calc.runtime :=
  {| Calc.ast_parse := fun _ => Raise SyntaxError;
     Calc.float_floordiv := fun _ _ => nan;
     Calc.float_mod := fun _ _ => nan;
     Calc.float_pow := fun _ _ => Raise OverflowError;
     Calc.complex_arith := fun _ _ _ => Raise TypeError |}.

(** ** Files and directories *)

Module FS.

(** A path is the list of its components from the root [/]; a component
    may be [..]. *)
Definition path := list string.

Inductive node : Type :=
| Dir
| File (text : string).

(** The disk: the nodes below the root, each under its resolved path.  The
    root itself is a directory. *)
Abbreviation disk := (gmap (list string) node).

Definition node_at (fs : disk) (p : path) : option node :=
  match p with
  | [] => Some Dir
  | _ => fs !! p
  end.

(** *** Pure paths ([pathlib]) *)

(** The components of a name between its slashes. *)
Fixpoint split_slash (cur : string) (s : string) : list string :=
  match s with
  | EmptyString => [cur]
  | String c s' =>
      if Ascii.eqb c "/" then cur :: split_slash EmptyString s'
      else split_slash (cur ++ String c EmptyString)%string s'
  end.

Definition skipped_part (c : string) : bool :=
  String.eqb c "" || String.eqb c ".".

Definition parts (s : string) : list string :=
  List.filter (fun c => negb (skipped_part c)) (split_slash EmptyString s).

Definition is_absolute (s : string) : bool :=
  match s with
  | String c _ => Ascii.eqb c "/"
  | EmptyString => false
  end.

(** [base / name]: an absolute name replaces [base]. *)
Definition joinpath (base : path) (name : string) : path :=
  if is_absolute name then parts name else base ++ parts name.

(** [p.parent], on the components. *)
Definition parent (p : path) : path := removelast p.

(** *** Path resolution *)

(** [walk fs cur rest] follows the components [rest] from the directory
    [cur]: each step needs [cur] to be a directory; [..] moves to the
    parent.  The node under the result may be missing. *)
Fixpoint walk (fs : disk) (cur : path) (rest : list string) : result path :=
  match rest with
  | [] => Ok cur
  | c :: rest' =>
      match node_at fs cur with
      | Some Dir =>
          if String.eqb c ".." then walk fs (parent cur) rest'
          else walk fs (cur ++ [c]) rest'
      | Some (File _) => Raise NotADirectoryError
      | None => Raise FileNotFoundError
      end
  end.

Definition resolve (fs : disk) (p : path) : result path := walk fs [] p.

(** [os.stat]: the node a path leads to. *)
Definition stat (fs : disk) (p : path) : result node :=
  match resolve fs p with
  | Ok q =>
      match node_at fs q with
      | Some n => Ok n
      | None => Raise FileNotFoundError
      end
  | Raise e => Raise e
  end.

(** [p.exists()] and [p.is_dir()]: false when [os.stat] fails. *)
Definition exists_ (fs : disk) (p : path) : bool := is_ok (stat fs p).

Definition is_dir (fs : disk) (p : path) : bool :=
  match stat fs p with
  | Ok Dir => true
  | _ => false
  end.

(** The names directly under the directory of resolved path [q]. *)
Definition child_name (q : path) (k : path) : option string :=
  match last k with
  | Some name => if decide (k = q ++ [name]) then Some name else None
  | None => None
  end.

Definition children (fs : disk) (q : path) : list string :=
  omap (child_name q) (elements (dom fs)).

(** [p.iterdir()], as the list of names. *)
Definition iterdir (fs : disk) (p : path) : result (list string) :=
  match resolve fs p with
  | Ok q =>
      match node_at fs q with
      | Some Dir => Ok (children fs q)
      | Some (File _) => Raise NotADirectoryError
      | None => Raise FileNotFoundError
      end
  | Raise e => Raise e
  end.

Fixpoint ends_with (suffix s : string) : bool :=
  String.eqb suffix s
  || match s with
     | EmptyString => false
     | String _ s' => ends_with suffix s'
     end.

(** [p.glob("*.txt")], as the list of names: nothing when [p] is no
    directory. *)
Definition glob_txt (fs : disk) (p : path) : list string :=
  match iterdir fs p with
  | Ok names => List.filter (ends_with ".txt") names
  | Raise _ => []
  end.

(** [os.mkdir(p)]. *)
Definition os_mkdir (fs : disk) (p : path) : result disk :=
  match resolve fs p with
  | Ok q =>
      match node_at fs q with
      | Some _ => Raise FileExistsError
      | None => Ok (<[q := Dir]> fs)
      end
  | Raise e => Raise e
  end.

(** [p.mkdir(parents=True, exist_ok=True)], after [pathlib]: the missing
    parents are made first; an error other than a missing parent is
    passed over when [p] is a directory. *)
Fixpoint mkdir_parents (fuel : nat) (fs : disk) (p : path) : result disk :=
  match os_mkdir fs p with
  | Ok fs' => Ok fs'
  | Raise FileNotFoundError =>
      match fuel, p with
      | S fuel', _ :: _ =>
          match mkdir_parents fuel' fs (parent p) with
          | Ok fs1 =>
              match os_mkdir fs1 p with
              | Ok fs2 => Ok fs2
              | Raise e => if is_dir fs1 p then Ok fs1 else Raise e
              end
          | Raise e => Raise e
          end
      | _, _ => Raise FileNotFoundError
      end
  | Raise e => if is_dir fs p then Ok fs else Raise e
  end.

Definition mkdir_p (fs : disk) (p : path) : result disk :=
  mkdir_parents (List.length p) fs p.

(** [p.write_text(text)]. *)
Definition write_text (fs : disk) (p : path) (text : string) : result disk :=
  match resolve fs p with
  | Ok q =>
      match node_at fs q with
      | Some Dir => Raise IsADirectoryError
      | _ => Ok (<[q := File text]> fs)
      end
  | Raise e => Raise e
  end.

(** [p.read_text()]. *)
Definition read_text (fs : disk) (p : path) : result string :=
  match stat fs p with
  | Ok (File text) => Ok text
  | Ok Dir => Raise IsADirectoryError
  | Raise e => Raise e
  end.

(** [p.unlink()]. *)
Definition unlink (fs : disk) (p : path) : result disk :=
  match resolve fs p with
  | Ok q =>
      match node_at fs q with
      | Some (File _) => Ok (delete q fs)
      | Some Dir => Raise IsADirectoryError
      | None => Raise FileNotFoundError
      end
  | Raise e => Raise e
  end.

(** [p.rmdir()]. *)
Definition rmdir (fs : disk) (p : path) : result disk :=
  match resolve fs p with
  | Ok q =>
      match node_at fs q with
      | Some Dir =>
          match children fs q with
          | [] => Ok (delete q fs)
          | _ :: _ => Raise DirectoryNotEmpty
          end
      | Some (File _) => Raise NotADirectoryError
      | None => Raise FileNotFoundError
      end
  | Raise e => Raise e
  end.

End FS.

(** ** The terminal: accounts and session *)

Module Terminal.

Local Open Scope string_scope.
Local Open Scope py_scope.

(** *** Python dictionaries, in insertion order *)

Definition pydict (V : Type) : Type := list (string * V).

Fixpoint dict_get {V : Type} (d : pydict V) (k : string) : option V :=
  match d with
  | [] => None
  | (k', v) :: d' => if String.eqb k' k then Some v else dict_get d' k
  end.

Definition dict_contains {V : Type} (d : pydict V) (k : string) : bool :=
  match dict_get d k with Some _ => true | None => false end.

(** [d[k] = v]: the value of an existing key is replaced where it stands, a
    new key goes last. *)
Fixpoint dict_set {V : Type} (d : pydict V) (k : string) (v : V) : pydict V :=
  match d with
  | [] => [(k, v)]
  | (k', v') :: d' =>
      if String.eqb k' k then (k, v) :: d' else (k', v') :: dict_set d' k v
  end.

(** *** Constants and paths *)

Definition LF : string := String "010"%char EmptyString.
Definition ESC : string := String "027"%char EmptyString.

(** ["\033[<code>m<text>\033[0m"]. *)
Definition colored (code text : string) : string :=
  ESC ++ "[" ++ code ++ "m" ++ text ++ ESC ++ "[0m".

Definition APP_NAME : string := "MyPersonalTerminal".
Definition DEFAULT_CATEGORIES : list string :=
  ["notes"; "contacts"; "passwords"; "projects"].
Definition CONFIG_FILE_TPL : string := "config.json".
Definition WEB_SHORTCUTS_FILE_TPL : string := "web_shortcuts.json".

Section Paths.

(** [Path.home()]. *)
Variable HOME : FS.path.

Definition APP_ROOT : FS.path :=
  FS.joinpath HOME ("." ++ PyStr.lower APP_NAME).
Definition USERS_FILE : FS.path := FS.joinpath APP_ROOT "users.json".

Definition user_root (username : string) : FS.path :=
  FS.joinpath (FS.joinpath APP_ROOT "users") username.

Definition category_dir (username category : string) : FS.path :=
  FS.joinpath (FS.joinpath (user_root username) "data") category.

Definition user_config_path (username : string) : FS.path :=
  FS.joinpath (user_root username) CONFIG_FILE_TPL.

Definition web_shortcuts_path (username : string) : FS.path :=
  FS.joinpath (user_root username) WEB_SHORTCUTS_FILE_TPL.

End Paths.

(** [ensure_dirs(path)]. *)
Definition ensure_dirs (fs : FS.disk) (p : FS.path) : result FS.disk :=
  FS.mkdir_p fs p.

(** *** Account records and their JSON text *)

(** An entry of the accounts mapping:
    [{"password_hash": ..., "pin_hash": ... or None}]. *)
Record account : Type := {
  password_hash : string;
  pin_hash : option string
}.

Definition hex4 (n : Z) : string :=
  fold_right
    (fun i acc =>
       String (Sha256.hex_digit (Z.land (Z.shiftr n (4 * Z.of_nat i)) 0xf)) acc)
    EmptyString (rev (seq 0 4)).

(** [json.dumps] of one character of a string, [ensure_ascii=False]. *)
Definition json_escape_char (c : ascii) : string :=
  let n := Z.of_N (N_of_ascii c) in
  if (n =? 34)%Z then "\" ++ String c EmptyString
  else if (n =? 92)%Z then "\\"
  else if (n =? 10)%Z then "\n"
  else if (n =? 13)%Z then "\r"
  else if (n =? 9)%Z then "\t"
  else if (n =? 8)%Z then "\b"
  else if (n =? 12)%Z then "\f"
  else if (n <? 32)%Z then "\u" ++ hex4 n
  else String c EmptyString.

Fixpoint json_escape (s : string) : string :=
  match s with
  | EmptyString => EmptyString
  | String c s' => json_escape_char c ++ json_escape s'
  end.

Definition json_string (s : string) : string :=
  String "034"%char (json_escape s) ++ String "034"%char EmptyString.

Definition json_optional_string (o : option string) : string :=
  match o with
  | Some s => json_string s
  | None => "null"
  end.

Definition json_account (name_account : string * account) : string :=
  let '(name, a) := name_account in
  "  " ++ json_string name ++ ": {" ++ LF
  ++ "    " ++ json_string "password_hash" ++ ": "
  ++ json_string (password_hash a) ++ "," ++ LF
  ++ "    " ++ json_string "pin_hash" ++ ": "
  ++ json_optional_string (pin_hash a) ++ LF
  ++ "  }".

(** [json.dumps(users, indent=2, ensure_ascii=False)]. *)
Definition json_dumps_users (users : pydict account) : string :=
  match users with
  | [] => "{}"
  | _ =>
      "{" ++ LF ++ String.concat ("," ++ LF) (map json_account users)
      ++ LF ++ "}"
  end.

(** The texts [_init_user_space] writes: [json.dumps], [indent=2], of the
    default preferences and of the two seed aliases. *)
Definition default_config_json : string :=
  "{" ++ LF
  ++ "  " ++ json_string "theme" ++ ": " ++ json_string "dark" ++ "," ++ LF
  ++ "  " ++ json_string "prompt" ++ ": " ++ json_string "myterm> " ++ "," ++ LF
  ++ "  " ++ json_string "banner" ++ ": true" ++ LF
  ++ "}".

Definition default_shortcuts_json : string :=
  "{" ++ LF
  ++ "  " ++ json_string "yt" ++ ": " ++ json_string "https://youtube.com"
  ++ "," ++ LF
  ++ "  " ++ json_string "gg" ++ ": " ++ json_string "https://google.com" ++ LF
  ++ "}".

(** [safe_json_save(path, data)], given the text [json.dumps] makes of
    [data]. *)
Definition safe_json_save (fs : FS.disk) (p : FS.path) (text : string)
  : result FS.disk :=
  let* fs1 := FS.mkdir_p fs (FS.parent p) in
  FS.write_text fs1 p text.

(** [safe_json_load(path, default)], given [json.loads] at the type of the
    data loaded. *)
Definition safe_json_load {A : Type} (json_loads : string -> result A)
    (fs : FS.disk) (p : FS.path) (default : A) : result A :=
  if FS.exists_ fs p then
    try_except
      (let* text := FS.read_text fs p in json_loads text)
      (fun _ => Ok default)
  else Ok default.

(** *** The session *)

(** The attributes of [MyPersonalTerminal] the handlers use, with the home
    directory and the disk. *)
Record session : Type := {
  HOME : FS.path;
  disk : FS.disk;
  users : pydict account;
  username : option string;
  authenticated : bool;
  self_pin_hash : option string
}.

Definition set_disk (s : session) (fs : FS.disk) : session :=
  {| HOME := HOME s; disk := fs; users := users s; username := username s;
     authenticated := authenticated s; self_pin_hash := self_pin_hash s |}.

Definition set_users (s : session) (u : pydict account) : session :=
  {| HOME := HOME s; disk := disk s; users := u; username := username s;
     authenticated := authenticated s; self_pin_hash := self_pin_hash s |}.

Definition set_pin_hash (s : session) (p : option string) : session :=
  {| HOME := HOME s; disk := disk s; users := users s; username := username s;
     authenticated := authenticated s; self_pin_hash := p |}.

(** [self.username = username; self.authenticated = True;
    self.pin_hash = pin]. *)
Definition logged_in (s : session) (name : string) (pin : option string)
  : session :=
  {| HOME := HOME s; disk := disk s; users := users s; username := Some name;
     authenticated := true; self_pin_hash := pin |}.

(** The truth value of [self.pin_hash]: [None] and the empty text are
    false. *)
Definition truthy (o : option string) : bool :=
  match o with
  | Some s => negb (PyStr.is_empty s)
  | None => false
  end.

(** [a == b] for a digest [a] and an attribute [b] that may be [None]. *)
Definition eq_hash (a : string) (b : option string) : bool :=
  match b with
  | Some h => String.eqb a h
  | None => false
  end.

(** How a call ends: it returns, it waits at a prompt with no line left, it
    leaves the process through [sys.exit], or it raises an exception
    nothing catches.  [out] is what was printed, in order. *)
Inductive reply (A : Type) : Type :=
| Return (a : A) (s : session) (stdin : list string) (out : list string)
| Blocked (s : session) (out : list string)
| Exit (code : Z) (s : session) (out : list string)
| Uncaught (e : exn) (s : session) (out : list string).
Arguments Return {A} a s stdin out.
Arguments Blocked {A} s out.
Arguments Exit {A} code s out.
Arguments Uncaught {A} e s out.

(** [r], after [lines] were printed. *)
Definition after_printing {A : Type} (lines : list string) (r : reply A)
  : reply A :=
  match r with
  | Return a s stdin out => Return a s stdin (lines ++ out)
  | Blocked s out => Blocked s (lines ++ out)
  | Exit code s out => Exit code s (lines ++ out)
  | Uncaught e s out => Uncaught e s (lines ++ out)
  end.

(** [_save_users()]. *)
Definition _save_users (s : session) : result session :=
  let* fs := safe_json_save (disk s) (USERS_FILE (HOME s))
                            (json_dumps_users (users s)) in
  Ok (set_disk s fs).

(** [_load_users()], given [json.loads] on account mappings. *)
Definition _load_users (json_loads : string -> result (pydict account))
    (s : session) : result session :=
  let* fs := ensure_dirs (disk s) (APP_ROOT (HOME s)) in
  let* u := safe_json_load json_loads fs (USERS_FILE (HOME s)) [] in
  Ok (set_users (set_disk s fs) u).

Fixpoint ensure_all (fs : FS.disk) (ps : list FS.path) : result FS.disk :=
  match ps with
  | [] => Ok fs
  | p :: ps' => let* fs1 := ensure_dirs fs p in ensure_all fs1 ps'
  end.

Definition write_if_missing (fs : FS.disk) (p : FS.path) (text : string)
  : result FS.disk :=
  if FS.exists_ fs p then Ok fs else safe_json_save fs p text.

(** [_init_user_space()], for the user [name]. *)
Definition _init_user_space (s : session) (name : string) : result session :=
  let home := HOME s in
  let uroot := user_root home name in
  let* fs1 := ensure_dirs (disk s) (FS.joinpath uroot "data") in
  let* fs2 := ensure_all fs1 (map (category_dir home name) DEFAULT_CATEGORIES) in
  let* fs3 := write_if_missing fs2 (user_config_path home name)
                               default_config_json in
  let* fs4 := write_if_missing fs3 (web_shortcuts_path home name)
                               default_shortcuts_json in
  Ok (set_disk s fs4).


(** Sequencing of calls: the second runs in the session and on the lines
    the first leaves, and what it prints comes after. *)
Definition and_then {A B : Type} (r : reply A)
    (k : A -> session -> list string -> reply B) : reply B :=
  match r with
  | Return a s stdin out => after_printing out (k a s stdin)
  | Blocked s out => Blocked s out
  | Exit code s out => Exit code s out
  | Uncaught e s out => Uncaught e s out
  end.

(** A call that may raise, inside a handler that catches nothing. *)
Definition or_uncaught {A B : Type} (r : result A) (s : session)
    (k : A -> reply B) : reply B :=
  match r with
  | Ok a => k a
  | Raise e => Uncaught e s []
  end.

(** *** Registration and login *)

(** The three prompt loops of [_register_user]. *)
Fixpoint choose_username (s : session) (stdin : list string) : reply string :=
  match stdin with
  | [] => Blocked s []
  | line :: rest =>
      let name := PyStr.strip line in
      if PyStr.is_empty name then
        after_printing ["Username cannot be empty."] (choose_username s rest)
      else if dict_contains (users s) name then
        after_printing ["User already exists. Pick another name."]
                       (choose_username s rest)
      else Return name s rest []
  end.

Fixpoint choose_password (s : session) (stdin : list string) : reply string :=
  match stdin with
  | [] => Blocked s []
  | line :: rest =>
      let pw := PyStr.strip line in
      if PyStr.is_empty pw then
        after_printing ["Password cannot be empty."] (choose_password s rest)
      else
        match rest with
        | [] => Blocked s []
        | line2 :: rest' =>
            let confirm := PyStr.strip line2 in
            if negb (String.eqb pw confirm) then
              after_printing ["Passwords do not match."]
                             (choose_password s rest')
            else Return pw s rest' []
        end
  end.

(** [pin.isdigit() and 4 <= len(pin) <= 8]. *)
Definition valid_pin (pin : string) : bool :=
  PyStr.isdigit pin && (4 <=? PyStr.len pin)%Z && (PyStr.len pin <=? 8)%Z.

Fixpoint choose_pin (s : session) (stdin : list string) : reply string :=
  match stdin with
  | [] => Blocked s []
  | line :: rest =>
      let pin := PyStr.strip line in
      if valid_pin pin then Return (shash pin) s rest []
      else after_printing ["Invalid PIN. Use 4-8 digits."] (choose_pin s rest)
  end.

Definition optional_pin (s : session) (stdin : list string)
  : reply (option string) :=
  match stdin with
  | [] => Blocked s []
  | line :: rest =>
      if String.eqb (PyStr.lower (PyStr.strip line)) "y" then
        and_then (choose_pin s rest) (fun h s' rest' => Return (Some h) s' rest' [])
      else Return None s rest []
  end.

(** [_register_user()]. *)
Definition _register_user (s : session) (stdin : list string) : reply unit :=
  and_then (choose_username s stdin) (fun name s stdin =>
  and_then (choose_password s stdin) (fun pw s stdin =>
  and_then (optional_pin s stdin) (fun pin s stdin =>
    let s1 := set_users s (dict_set (users s) name
                {| password_hash := shash pw; pin_hash := pin |}) in
    or_uncaught (_save_users s1) s1 (fun s2 =>
    let s3 := logged_in s2 name pin in
    or_uncaught (_init_user_space s3 name) s3 (fun s4 =>
    Return tt s4 stdin
      [colored "92" ("User '" ++ name ++ "' registered and logged in.")]))))).

(** [username in self.users and
    self.users[username]["password_hash"] == shash(pw)]. *)
Definition credentials_ok (s : session) (name pw : string) : bool :=
  match dict_get (users s) name with
  | Some a => String.eqb (password_hash a) (shash pw)
  | None => false
  end.

(** The body of [for _ in range(n)] in [_login_user], and what follows the
    loop. *)
Fixpoint login_attempts (n : nat) (s : session) (stdin : list string)
  : reply unit :=
  match n with
  | O => Exit 1 s ["Too many failed attempts. Exiting."]
  | S n' =>
      match stdin with
      | line1 :: line2 :: rest =>
          let name := PyStr.strip line1 in
          let pw := PyStr.strip line2 in
          if credentials_ok s name pw then
            let pin := match dict_get (users s) name with
                       | Some a => pin_hash a
                       | None => None
                       end in
            let s1 := logged_in s name pin in
            after_printing [colored "92" "Login successful."]
              (or_uncaught (_init_user_space s1 name) s1 (fun s2 =>
               Return tt s2 rest []))
          else
            after_printing [colored "91" "Invalid credentials."]
                           (login_attempts n' s rest)
      | _ => Blocked s []
      end
  end.

(** [_login_user()]. *)
Definition _login_user (s : session) (stdin : list string) : reply unit :=
  login_attempts 5 s stdin.

Fixpoint choose_login_or_register (s : session) (stdin : list string)
  : reply string :=
  match stdin with
  | [] => Blocked s []
  | line :: rest =>
      let choice := PyStr.lower (PyStr.strip line) in
      if String.eqb choice "l" || String.eqb choice "r"
      then Return choice s rest []
      else choose_login_or_register s rest
  end.

(** [_login_or_register()]. *)
Definition _login_or_register (s : session) (stdin : list string)
  : reply unit :=
  after_printing [colored "96" "Welcome to your Personal Terminal."]
    match users s with
    | [] =>
        after_printing
          [colored "92" "No users found. Let's create your account."]
          (_register_user s stdin)
    | _ :: _ =>
        and_then (choose_login_or_register s stdin) (fun choice s stdin =>
          if String.eqb choice "r" then _register_user s stdin
          else _login_user s stdin)
    end.

(** *** The PIN *)

Fixpoint unlock_loop (s : session) (stdin : list string) : reply bool :=
  match stdin with
  | [] => Blocked s []
  | line :: rest =>
      let pin := PyStr.strip line in
      if eq_hash (shash pin) (self_pin_hash s)
      then Return false s rest ["Unlocked."]
      else after_printing ["Wrong PIN."] (unlock_loop s rest)
  end.

(** [do_lock(arg)]. *)
Definition do_lock (s : session) (arg : string) (stdin : list string)
  : reply bool :=
  if negb (truthy (self_pin_hash s)) then
    Return false s stdin ["No PIN set. Use 'setpin' to create one."]
  else
    after_printing ["Locked. Enter PIN to continue."] (unlock_loop s stdin).

(** [self.users[self.username]["pin_hash"] = pin] followed by
    [self._save_users()]. *)
Definition store_pin (s : session) (pin : option string) : result session :=
  match username s with
  | None => Raise KeyError
  | Some name =>
      match dict_get (users s) name with
      | None => Raise KeyError
      | Some a =>
          _save_users
            (set_users s (dict_set (users s) name
               {| password_hash := password_hash a; pin_hash := pin |}))
      end
  end.

Fixpoint new_pin_loop (s : session) (stdin : list string) : reply bool :=
  match stdin with
  | [] => Blocked s []
  | line :: rest =>
      let pin := PyStr.strip line in
      if valid_pin pin then
        match rest with
        | [] => Blocked s []
        | line2 :: rest' =>
            let confirm := PyStr.strip line2 in
            if String.eqb confirm pin then
              let s1 := set_pin_hash s (Some (shash pin)) in
              or_uncaught (store_pin s1 (Some (shash pin))) s1 (fun s2 =>
              Return false s2 rest' ["PIN updated."])
            else after_printing ["PINs do not match."] (new_pin_loop s rest')
        end
      else after_printing ["Invalid PIN format."] (new_pin_loop s rest)
  end.

(** [do_setpin(arg)]. *)
Definition do_setpin (s : session) (arg : string) (stdin : list string)
  : reply bool :=
  if truthy (self_pin_hash s) then
    match stdin with
    | [] => Blocked s []
    | line :: rest =>
        let old := PyStr.strip line in
        if negb (eq_hash (shash old) (self_pin_hash s))
        then Return false s rest ["Incorrect old PIN."]
        else new_pin_loop s rest
    end
  else new_pin_loop s stdin.

(** [do_clearpin(arg)]. *)
Definition do_clearpin (s : session) (arg : string) (stdin : list string)
  : reply bool :=
  if negb (truthy (self_pin_hash s)) then Return false s stdin ["No PIN set."]
  else
    match stdin with
    | [] => Blocked s []
    | line :: rest =>
        let pin := PyStr.strip line in
        if eq_hash (shash pin) (self_pin_hash s) then
          let s1 := set_pin_hash s None in
          or_uncaught (store_pin s1 None) s1 (fun s2 =>
          Return false s2 rest ["PIN cleared."])
        else Return false s rest ["Wrong PIN."]
    end.


(** *** Personal data *)

Fixpoint insert_sorted (x : string) (l : list string) : list string :=
  match l with
  | [] => [x]
  | y :: l' => if String.leb x y then x :: l else y :: insert_sorted x l'
  end.

(** [sorted(names)]. *)
Definition sorted (l : list string) : list string :=
  fold_right insert_sorted [] l.

(** [needle in text]. *)
Fixpoint contains (needle text : string) : bool :=
  String.prefix needle text
  || match text with
     | EmptyString => false
     | String _ text' => contains needle text'
     end.

(** A handler that needs [self.username]. *)
Definition with_user {A : Type} (s : session) (k : string -> reply A)
  : reply A :=
  match username s with
  | Some name => k name
  | None => Uncaught TypeError s []
  end.

Definition categories_usage : string :=
  "Usage: categories [list|add <name>|del <name>]".

(** [do_categories(arg)], its three branches. *)
Definition categories_list (s : session) (stdin : list string) : reply bool :=
  with_user s (fun name =>
    let p := FS.joinpath (user_root (HOME s) name) "data" in
    or_uncaught (FS.iterdir (disk s) p) s (fun names =>
      let cats :=
        sorted (List.filter (fun c => FS.is_dir (disk s) (p ++ [c])%list) names) in
      Return false s stdin (map (fun c => "- " ++ c) cats))).

Definition categories_add (s : session) (cat : string) (stdin : list string)
  : reply bool :=
  with_user s (fun name =>
    let cat := PyStr.strip cat in
    or_uncaught (ensure_dirs (disk s) (category_dir (HOME s) name cat)) s
      (fun fs =>
         Return false (set_disk s fs) stdin
                ["Category '" ++ cat ++ "' added."])).

Definition categories_del (s : session) (cat : string) (stdin : list string)
  : reply bool :=
  with_user s (fun name =>
    let cat := PyStr.strip cat in
    let cdir := category_dir (HOME s) name cat in
    if negb (FS.exists_ (disk s) cdir) then
      Return false s stdin ["Category not found."]
    else
      or_uncaught (FS.iterdir (disk s) cdir) s (fun names =>
        match names with
        | _ :: _ =>
            Return false s stdin ["Category not empty. Delete files first."]
        | [] =>
            or_uncaught (FS.rmdir (disk s) cdir) s (fun fs =>
              Return false (set_disk s fs) stdin
                     ["Category '" ++ cat ++ "' deleted."])
        end)).

Definition do_categories (s : session) (arg : string) (stdin : list string)
  : reply bool :=
  match PyStr.split arg with
  | [] => categories_list s stdin
  | word :: more =>
      if String.eqb word "list" then categories_list s stdin
      else
        match more with
        | cat :: _ =>
            if String.eqb word "add" then categories_add s cat stdin
            else if String.eqb word "del" then categories_del s cat stdin
            else Return false s stdin [categories_usage]
        | [] => Return false s stdin [categories_usage]
        end
  end.

(** The text of a stored entry:
    [f"{content.rstrip()}\n\n---\nSaved on: {ts}\nTitle: {title}\nCategory: {category}\n"]. *)
Definition entry_body (category title content ts : string) : string :=
  PyStr.rstrip content ++ LF ++ LF ++ "---" ++ LF
  ++ "Saved on: " ++ ts ++ LF
  ++ "Title: " ++ title ++ LF
  ++ "Category: " ++ category ++ LF.

Definition entry_path (home : FS.path) (name category title : string)
  : FS.path :=
  FS.joinpath (category_dir home name category) (normalize_title title ++ ".txt").

(** [_write_entry(category, title, content)]; [ts] is what the clock
    reads, formatted. *)
Definition _write_entry (s : session) (category title content ts : string)
    (stdin : list string) : reply bool :=
  with_user s (fun name =>
    let cdir := category_dir (HOME s) name category in
    if negb (FS.exists_ (disk s) cdir) then
      Return false s stdin
        ["Category does not exist. Create it with: categories add " ++ category]
    else
      let fpath := entry_path (HOME s) name category title in
      let body := entry_body category title content ts in
      or_uncaught (FS.write_text (disk s) fpath body) s (fun fs =>
        Return true (set_disk s fs) stdin [])).

Definition passwords_warning : string :=
  colored "93" "[Note]"
  ++ " You are using the 'passwords' category. Encryption is not enabled in v1. "
  ++ "Avoid storing real passwords here. (We can add encryption in v2.)".

Definition save_usage : string := "Usage: save <category> <title>|<content>".

(** [do_save(arg)]. *)
Definition do_save (s : session) (arg ts : string) (stdin : list string)
  : reply bool :=
  match PyStr.split_once "|" arg with
  | None => Return false s stdin [save_usage]
  | Some (head, content) =>
      match PyStr.split_max (Some 1%nat) (PyStr.strip head) with
      | [category; title] =>
          after_printing
            (if String.eqb category "passwords" then [passwords_warning] else [])
            (and_then (_write_entry s category title content ts stdin)
               (fun ok s stdin =>
                  Return false s stdin
                    (if ok then
                       [colored "92" "Saved:" ++ " " ++ category ++ "/"
                        ++ normalize_title title ++ ".txt"]
                     else [])))
      | _ => Return false s stdin [save_usage]
      end
  end.

(** [category, rest = parts[0], " ".join(parts[1:])] for
    [parts = arg.split(maxsplit=2)], when there are two parts at least. *)
Definition category_and_rest (arg : string) : option (string * string) :=
  match PyStr.split_max (Some 2%nat) arg with
  | category :: (_ :: _) as more => Some (category, PyStr.join " " more)
  | _ => None
  end.

(** [sorted(p.name for p in cdir.glob("*.txt"))]: the listing of
    [view <category> all]. *)
Definition view_all (s : session) (name category : string) : list string :=
  sorted (FS.glob_txt (disk s) (category_dir (HOME s) name category)).

(** [do_view(arg)]. *)
Definition do_view (s : session) (arg : string) (stdin : list string)
  : reply bool :=
  match category_and_rest arg with
  | None => Return false s stdin ["Usage: view <category> <title|all>"]
  | Some (category, rest) =>
      with_user s (fun name =>
        let cdir := category_dir (HOME s) name category in
        if negb (FS.exists_ (disk s) cdir) then
          Return false s stdin ["Category not found."]
        else if String.eqb (PyStr.lower rest) "all" then
          match view_all s name category with
          | [] => Return false s stdin ["(no entries)"]
          | files => Return false s stdin (map (fun f => "- " ++ f) files)
          end
        else
          let fpath := entry_path (HOME s) name category rest in
          if negb (FS.exists_ (disk s) fpath) then
            Return false s stdin ["Entry not found."]
          else
            or_uncaught (FS.read_text (disk s) fpath) s (fun text =>
              Return false s stdin [colored "92" text]))
  end.

(** [do_delete(arg)]. *)
Definition do_delete (s : session) (arg : string) (stdin : list string)
  : reply bool :=
  match category_and_rest arg with
  | None => Return false s stdin ["Usage: delete <category> <title>"]
  | Some (category, title) =>
      with_user s (fun name =>
        let fpath := entry_path (HOME s) name category title in
        if FS.exists_ (disk s) fpath then
          or_uncaught (FS.unlink (disk s) fpath) s (fun fs =>
            Return false (set_disk s fs) stdin
              ["Deleted " ++ category ++ "/" ++ normalize_title title ++ ".txt"])
        else Return false s stdin ["Entry not found."])
  end.

Definition edit_usage : string :=
  "Usage: edit <category> <title>|<new_content>".

(** [do_edit(arg)]. *)
Definition do_edit (s : session) (arg ts : string) (stdin : list string)
  : reply bool :=
  match PyStr.split_once "|" arg with
  | None => Return false s stdin [edit_usage]
  | Some (head, new_content) =>
      match PyStr.split_max (Some 1%nat) (PyStr.strip head) with
      | [category; title] =>
          with_user s (fun name =>
            let fpath := entry_path (HOME s) name category title in
            if negb (FS.exists_ (disk s) fpath) then
              Return false s stdin ["Entry not found."]
            else
              and_then (_write_entry s category title new_content ts stdin)
                (fun ok s stdin =>
                   Return false s stdin
                     (if ok then ["Entry updated."] else [])))
      | _ => Return false s stdin [edit_usage]
      end
  end.

(** [do_search(arg)]: an entry that cannot be read is passed over. *)
Definition do_search (s : session) (arg : string) (stdin : list string)
  : reply bool :=
  match PyStr.split_max (Some 1%nat) (PyStr.strip arg) with
  | [category; word] =>
      let keyword := PyStr.lower word in
      with_user s (fun name =>
        let cdir := category_dir (HOME s) name category in
        if negb (FS.exists_ (disk s) cdir) then
          Return false s stdin ["Category not found."]
        else
          let hit f :=
            match FS.read_text (disk s) (cdir ++ [f])%list with
            | Ok text => contains keyword (PyStr.lower text)
            | Raise _ => false
            end in
          match List.filter hit (FS.glob_txt (disk s) cdir) with
          | [] => Return false s stdin ["(no matches)"]
          | hits =>
              Return false s stdin ("Matches:" :: map (fun h => "- " ++ h) hits)
          end)
  | _ => Return false s stdin ["Usage: search <category> <keyword>"]
  end.

(** [do_exit(arg)] and [do_quit(arg)]: the only handlers that return
    [True]. *)
Definition do_exit (s : session) (arg : string) (stdin : list string)
  : reply bool :=
  Return true s stdin [colored "91" "Goodbye!"].

Definition do_quit := do_exit.

(** *** The command loop around a handler *)

(** What becomes of the process after a handler called from [cmdloop],
    itself called from [main]: no handler catches what the call raises and
    [main] catches [KeyboardInterrupt] only, so an uncaught exception ends
    the process with a traceback and status 1, as [sys.exit(1)] does. *)
Inductive fate : Type :=
| Continues (s : session)
| Waits
| Leaves
| Dies (status : Z).

Definition cmdloop_fate (r : reply bool) : fate :=
  match r with
  | Return stop s _ _ => if stop then Leaves else Continues s
  | Blocked _ _ => Waits
  | Exit code _ _ => Dies code
  | Uncaught _ _ _ => Dies 1
  end.

End Terminal.

(** ** Sessions for closed examples *)

(** A first run on an empty home directory, before anyone registered. *)
Definition fresh_session : Terminal.session :=
  {| Terminal.HOME := ["home"; "alice"]%string;
     Terminal.disk := ∅;
     Terminal.users := [];
     Terminal.username := None;
     Terminal.authenticated := false;
     Terminal.self_pin_hash := None |}.

Definition session_of {A : Type} (r : Terminal.reply A) : Terminal.session :=
  match r with
  | Terminal.Return _ s _ _ | Terminal.Blocked s _
  | Terminal.Exit _ s _ | Terminal.Uncaught _ s _ => s
  end.

(** The session once [alice] has registered with the password [secret] and
    no PIN, and once she has set the PIN [1234]. *)
Definition alice_session : Terminal.session :=
  session_of
    (Terminal._login_or_register fresh_session
       ["alice"; "secret"; "secret"; "n"]%string).

Definition alice_with_pin : Terminal.session :=
  session_of (Terminal.do_setpin alice_session "" ["1234"; "1234"]%string).

(** [alice]'s session once she has saved a note. *)
Definition alice_with_note : Terminal.session :=
  session_of
    (Terminal.do_save alice_session "notes My Title|body" "2024-05-01 09:30:00"
       []).

(** The lines of a list of login attempts, a user name and a password for
    each. *)
Definition attempt_lines (attempts : list (string * string)) : list string :=
  flat_map (fun up => [fst up; snd up]) attempts.

Definition wrong_attempt (s : Terminal.session) (up : string * string) : bool :=
  negb (Terminal.credentials_ok s (PyStr.strip (fst up)) (PyStr.strip (snd up))).

(** A line typed at the PIN prompt of [do_lock] that does not unlock. *)
Definition wrong_pin (s : Terminal.session) (line : string) : bool :=
  negb (Terminal.eq_hash (shash (PyStr.strip line)) (Terminal.self_pin_hash s)).

(** The character U+00B2, superscript two, and a PIN made of four. *)
Definition superscript_two : ascii := "178"%char.
Definition superscript_pin : string :=
  String superscript_two (String superscript_two
    (String superscript_two (String superscript_two EmptyString))).

(** [alice]'s disk once the accounts file has been damaged, and a
    [json.loads] for the closed examples: it reads the empty object and
    rejects any other text, as the real one rejects the damaged file. *)
Definition damaged_accounts : Terminal.session :=
  match FS.write_text (Terminal.disk alice_session)
          (Terminal.USERS_FILE (Terminal.HOME alice_session))
          "{ not json"%string with
  | Ok fs => Terminal.set_disk alice_session fs
  | Raise _ => alice_session
  end.

Definition loads_empty_object
  : string -> result (Terminal.pydict Terminal.account) :=
  fun text => if String.eqb text "{}" then Ok [] else Raise JSONDecodeError.

(** * Properties *)

(** Closed equations are settled by evaluation. *)
Ltac by_computation :=
  match goal with
  | |- ?a = ?b => vm_cast_no_check (@eq_refl _ b)
  end.

(** ** Python strings and the digest, on known values *)

Example normalize_title_spaces :
  normalize_title "  My   Title " = "My_Title"%string.
Proof. reflexivity. Qed.

Example split_max_keeps_rest :
  PyStr.split_max (Some 1%nat) "a b  c  " = ["a"; "b  c  "]%string.
Proof. reflexivity. Qed.

Example sha256_constants :
  firstn 2 Sha256.K = [0x428a2f98; 0x71374491]
  /\ last Sha256.K = Some 0xc67178f2
  /\ List.length Sha256.K = 64%nat
  /\ firstn 1 Sha256.H0 = [0x6a09e667]
  /\ last Sha256.H0 = Some 0x5be0cd19.
Proof. vm_compute. repeat split; reflexivity. Qed.

Example shash_empty :
  shash "" =
  "e3b0c44298fc1c149afbf4c8996fb92427ae41e4649b934ca495991b7852b855"%string.
Proof. vm_compute. reflexivity. Qed.

Example shash_abc :
  shash "abc" =
  "ba7816bf8f01cfea414140de5dae2223b00361a396177a9cb410ff61f20015ad"%string.
Proof. vm_compute. reflexivity. Qed.

Lemma bind_ok_inv {A B : Type} (r : result A) (k : A -> result B) (b : B) :
  bind r k = Ok b -> exists a, r = Ok a /\ k a = Ok b.
Proof. destruct r as [a|e]; simpl; intros H; [eauto | discriminate]. Qed.

Lemma bind_raise_inv {A B : Type} (r : result A) (k : A -> result B) (e : exn) :
  bind r k = Raise e -> r = Raise e \/ exists a, r = Ok a /\ k a = Raise e.
Proof. destruct r as [a|e']; simpl; intros H; [right; eauto | left; congruence]. Qed.

(** ** The safe calculator *)

Section CalcFacts.

Import Calc.
Variable rt : runtime.

Lemma eval_ok_supported (e : expr) (v : value) :
  _eval rt e = Ok v -> supported e = true.
Proof.
  revert v. unfold supported.
  induction e as [c|l IHl op r IHr|op x IHx| | | | | | | | | | |];
    intros v H; simpl in H; try discriminate.
  - destruct c; simpl; try reflexivity; discriminate.
  - destruct (SAFE_OPS_binary rt op) as [f|] eqn:Hop; [|discriminate].
    apply bind_ok_inv in H as (x & Hx & H).
    apply bind_ok_inv in H as (y & Hy & _).
    simpl. rewrite (IHl _ Hx), (IHr _ Hy).
    destruct op; try reflexivity; discriminate.
  - destruct (SAFE_OPS_unary op) as [f|] eqn:Hop; [|discriminate].
    apply bind_ok_inv in H as (y & Hy & _).
    simpl. rewrite (IHx _ Hy).
    destruct op; try reflexivity; discriminate.
Qed.

Lemma eval_raise_kinds (e : expr) (err : exn) :
  _eval rt e = Raise err -> rejection err \/ operator_error rt err.
Proof.
  revert err.
  induction e as [c|l IHl op r IHr|op x IHx| | | | | | | | | | |];
    intros err H; simpl in H;
    try (left; left; congruence).
  - destruct c; try discriminate; left; right; congruence.
  - destruct (SAFE_OPS_binary rt op) as [f|] eqn:Hop;
      [|left; left; congruence].
    apply bind_raise_inv in H as [H|(x & Hx & H)]; [eauto|].
    apply bind_raise_inv in H as [H|(y & Hy & H)]; [eauto|].
    right; left. exists op, f, x, y. auto.
  - destruct (SAFE_OPS_unary op) as [f|] eqn:Hop;
      [|left; left; congruence].
    apply bind_raise_inv in H as [H|(y & Hy & H)]; [eauto|].
    right; right. exists op, f, y. auto.
Qed.

Lemma eval_unsupported_raises (e : expr) :
  supported e = false ->
  exists err, _eval rt e = Raise err /\ (rejection err \/ operator_error rt err).
Proof.
  intros Hs. destruct (_eval rt e) as [v|err] eqn:He.
  - apply eval_ok_supported in He. congruence.
  - exists err. split; [reflexivity|]. exact (eval_raise_kinds e err He).
Qed.

Lemma eval_other_node (e : expr) :
  other_node e = true -> _eval rt e = Raise unsupported_expression.
Proof. destruct e; simpl; intros H; try reflexivity; discriminate. Qed.

Lemma eval_operator_not_whitelisted (l r : expr) (op : operator) :
  whitelisted_binary op = false ->
  _eval rt (BinOp l op r) = Raise unsupported_expression.
Proof. destruct op; simpl; intros H; try discriminate; reflexivity. Qed.

Lemma eval_true : _eval rt ex_true = Ok (VBool true).
Proof. reflexivity. Qed.

Lemma eval_imaginary (im : float) :
  _eval rt (Constant (CImag im)) = Ok (VComplex 0%float im).
Proof. reflexivity. Qed.

Lemma eval_import_os : _eval rt ex_import_os = Raise unsupported_expression.
Proof. reflexivity. Qed.

Lemma eval_zero_division_first :
  _eval rt ex_zero_division_first = Raise ZeroDivisionError.
Proof. vm_compute. reflexivity. Qed.

End CalcFacts.


(** C1 (as amended).  The evaluator returns a value only for a tree built
    from numeric constants ([int], [float], [complex] and [bool]) and the
    whitelisted operators.  On every other tree it raises: the error is one
    of its two rejections ("Unsupported expression.", "Only numbers
    allowed.") or the error of an operator applied to operands evaluated
    before the offending node was reached.  A node that is no constant,
    binary or unary operation, such as the call [__import__('os')], and a
    binary operation whose operator is not whitelisted, are rejected with
    "Unsupported expression." whatever they contain. *)
Theorem calc_evaluates_only_the_whitelist (rt : Calc.runtime) (e : Calc.expr) :
  (forall v, Calc._eval rt e = Ok v -> Calc.supported e = true)
  /\ (Calc.supported e = false ->
      exists err, Calc._eval rt e = Raise err
                  /\ (Calc.rejection err \/ Calc.operator_error rt err))
  /\ (Calc.other_node e = true ->
      Calc._eval rt e = Raise Calc.unsupported_expression)
  /\ Calc._eval rt Calc.ex_import_os = Raise Calc.unsupported_expression.
Proof.
  split; [|split; [|split]].
  - intros v. apply eval_ok_supported.
  - apply eval_unsupported_raises.
  - apply eval_other_node.
  - apply eval_import_os.
Qed.

Lemma calc_evaluates_only_the_whitelist_witness :
  (exists err, Calc._eval bare_runtime (Calc.Name "os") = Raise err
               /\ (Calc.rejection err \/ Calc.operator_error bare_runtime err))
  /\ Calc._eval bare_runtime (Calc.Name "os") = Raise Calc.unsupported_expression.
Proof.
  pose proof (calc_evaluates_only_the_whitelist bare_runtime (Calc.Name "os"))
    as (_ & H2 & H3 & _).
  split; [apply H2 | apply H3]; reflexivity.
Defined.

(** C1, as the specification words it, fails: [True] is neither an [int]
    nor a [float] literal, and it evaluates. *)
Lemma calc_accepts_a_bool_literal :
  ~ (forall (rt : Calc.runtime) (e : Calc.expr),
        Calc.within_spec_whitelist e = false ->
        exists err, Calc._eval rt e = Raise err).
Proof.
  intros H.
  destruct (H bare_runtime Calc.ex_true eq_refl) as [err Herr].
  discriminate Herr.
Qed.

(** The error of an operand comes first: [1/0 + x] raises
    [ZeroDivisionError], not the rejection of the name [x]. *)
Lemma calc_operand_error_comes_first (rt : Calc.runtime) :
  Calc._eval rt Calc.ex_zero_division_first = Raise ZeroDivisionError
  /\ Calc.supported Calc.ex_zero_division_first = false.
Proof. split; [apply eval_zero_division_first | reflexivity]. Qed.

(** The same at the level of [safe_eval_expr] and [do_calc]: a text whose
    tree is not supported prints an error, never a value. *)
Lemma do_calc_unsupported (rt : Calc.runtime) (arg : string) (e : Calc.expr) :
  PyStr.strip arg <> ""%string ->
  Calc.ast_parse rt (PyStr.strip arg) = Ok e ->
  Calc.supported e = false ->
  exists err, Calc.do_calc rt arg = Calc.PrintError err.
Proof.
  intros Hne Hp Hs. unfold Calc.do_calc, Calc.safe_eval_expr.
  destruct (PyStr.strip arg) as [|c s] eqn:Harg; [congruence|].
  simpl. rewrite Hp. simpl.
  destruct (eval_unsupported_raises rt e Hs) as (err & -> & _). eauto.
Qed.

Lemma do_calc_syntax_error (rt : Calc.runtime) (arg : string) (err : exn) :
  PyStr.strip arg <> ""%string ->
  Calc.ast_parse rt (PyStr.strip arg) = Raise err ->
  Calc.do_calc rt arg = Calc.PrintError err.
Proof.
  intros Hne Hp. unfold Calc.do_calc, Calc.safe_eval_expr.
  destruct (PyStr.strip arg) as [|c s] eqn:Harg; [congruence|].
  simpl. rewrite Hp. reflexivity.
Qed.


Section CalcArithmetic.

Import Calc.
Variable rt : runtime.

Local Ltac eval_operands Hl Hr := simpl; rewrite Hl, Hr; simpl.

Lemma int_truediv_outcome (a b : Z) :
  (exists f, int_truediv a b = Ok f)
  \/ (b = 0 /\ int_truediv a b = Raise ZeroDivisionError)
  \/ (b <> 0 /\ int_truediv a b = Raise OverflowError).
Proof.
  unfold int_truediv. destruct (Z.eqb_spec b 0) as [->|Hb]; [right; left; auto|].
  destruct (a =? 0); [left; eauto|].
  destruct (SFdiv_core_binary prec emax (Z.abs a) 0 (Z.abs b) 0) as [[q e] loc].
  destruct (binary_round_aux prec emax _ q e loc); eauto.
Qed.

Lemma as_float_outcome (x : value) :
  is_complex x = false ->
  (exists f, as_float x = Ok f) \/ as_float x = Raise OverflowError.
Proof.
  destruct x as [z|b|f|re im]; simpl; intros H; try discriminate; eauto.
  unfold int_to_float. destruct (binary_normalize prec emax z 0 false); eauto.
Qed.

(** [/] on [int], [bool] and [float] operands: a [float], or the division
    by zero, or a number too large for a [float]. *)
Lemma truediv_real_operands (l r : expr) (x y : value) :
  _eval rt l = Ok x -> _eval rt r = Ok y ->
  is_complex x = false -> is_complex y = false ->
  (exists f, _eval rt (BinOp l Div r) = Ok (VFloat f))
  \/ _eval rt (BinOp l Div r) = Raise ZeroDivisionError
  \/ _eval rt (BinOp l Div r) = Raise OverflowError.
Proof.
  intros Hl Hr Hx Hy. eval_operands Hl Hr.
  unfold op_truediv, arith. rewrite Hx, Hy. simpl.
  destruct (as_int x) as [a|] eqn:Hax, (as_int y) as [b|] eqn:Hay.
  - simpl. destruct (int_truediv_outcome a b) as [[f ->]|[[_ ->]|[_ ->]]];
      simpl; eauto.
  - destruct (as_float_outcome x Hx) as [[fx ->]| ->]; simpl; [|eauto].
    destruct (as_float_outcome y Hy) as [[fy ->]| ->]; simpl; [|eauto].
    destruct (float_is_zero fy); eauto.
  - destruct (as_float_outcome x Hx) as [[fx ->]| ->]; simpl; [|eauto].
    destruct (as_float_outcome y Hy) as [[fy ->]| ->]; simpl; [|eauto].
    destruct (float_is_zero fy); eauto.
  - destruct (as_float_outcome x Hx) as [[fx ->]| ->]; simpl; [|eauto].
    destruct (as_float_outcome y Hy) as [[fy ->]| ->]; simpl; [|eauto].
    destruct (float_is_zero fy); eauto.
Qed.

(** [/] on two integers of which the second is not zero: a [float], unless
    the quotient is too large for one. *)
Lemma truediv_int_operands (l r : expr) (a b : Z) :
  _eval rt l = Ok (VInt a) -> _eval rt r = Ok (VInt b) -> b <> 0 ->
  (exists f, _eval rt (BinOp l Div r) = Ok (VFloat f))
  \/ _eval rt (BinOp l Div r) = Raise OverflowError.
Proof.
  intros Hl Hr Hb. eval_operands Hl Hr.
  unfold op_truediv, arith. simpl.
  destruct (int_truediv_outcome a b) as [[f ->]|[[? _]|[_ ->]]];
    simpl; eauto. contradiction.
Qed.

(** [//], [+], [-] and [*] on two integers stay in the integers. *)
Lemma int_operands_stay_int (l r : expr) (a b : Z) :
  _eval rt l = Ok (VInt a) -> _eval rt r = Ok (VInt b) ->
  _eval rt (BinOp l Add r) = Ok (VInt (a + b))
  /\ _eval rt (BinOp l Sub r) = Ok (VInt (a - b))
  /\ _eval rt (BinOp l Mult r) = Ok (VInt (a * b))
  /\ (b <> 0 -> _eval rt (BinOp l FloorDiv r) = Ok (VInt (a / b))).
Proof.
  intros Hl Hr. repeat split; try (eval_operands Hl Hr; reflexivity).
  intros Hb. eval_operands Hl Hr.
  unfold op_floordiv, arith. simpl.
  destruct (Z.eqb_spec b 0); [contradiction|reflexivity].
Qed.

(** [+], [-] and [*] on an integer and a [float]: the integer is promoted
    and the result is a [float]. *)
Lemma int_float_promotion (l r : expr) (a : Z) (fa y : float) :
  _eval rt l = Ok (VInt a) -> _eval rt r = Ok (VFloat y) ->
  int_to_float a = Ok fa ->
  _eval rt (BinOp l Add r) = Ok (VFloat (fa + y)%float)
  /\ _eval rt (BinOp l Sub r) = Ok (VFloat (fa - y)%float)
  /\ _eval rt (BinOp l Mult r) = Ok (VFloat (fa * y)%float).
Proof.
  intros Hl Hr Ha.
  repeat split; eval_operands Hl Hr;
    unfold op_add, op_sub, op_mul, arith; simpl; rewrite Ha; reflexivity.
Qed.

Lemma eval_2_plus_3_times_4 : _eval rt ex_2_plus_3_times_4 = Ok (VInt 20).
Proof. reflexivity. Qed.

Lemma eval_7_div_2 : _eval rt ex_7_div_2 = Ok (VFloat 3.5%float).
Proof. vm_compute. reflexivity. Qed.

Lemma eval_7_floordiv_2 : _eval rt ex_7_floordiv_2 = Ok (VInt 3).
Proof. reflexivity. Qed.

End CalcArithmetic.

(** C7.  The evaluator computes standard arithmetic with numeric promotion:
    [(2+3)*4] is the integer 20 and [7/2] the float 3.5, while [7//2] is
    the integer 3.  True division of [int], [bool] and [float] operands
    gives a [float] whenever it gives a value (it raises on a zero divisor
    and on a quotient too large for a float); [+], [-], [*] and [//] keep
    two integers in the integers, and promote an integer met with a
    [float]. *)
Theorem calc_standard_arithmetic
    (rt : Calc.runtime) (l r : Calc.expr) (x y : Calc.value) :
  Calc._eval rt l = Ok x -> Calc._eval rt r = Ok y ->
  Calc.is_complex x = false -> Calc.is_complex y = false ->
  Calc._eval rt Calc.ex_2_plus_3_times_4 = Ok (Calc.VInt 20)
  /\ Calc._eval rt Calc.ex_7_div_2 = Ok (Calc.VFloat 3.5%float)
  /\ Calc._eval rt Calc.ex_7_floordiv_2 = Ok (Calc.VInt 3)
  /\ ((exists f, Calc._eval rt (Calc.BinOp l Calc.Div r) = Ok (Calc.VFloat f))
      \/ Calc._eval rt (Calc.BinOp l Calc.Div r) = Raise ZeroDivisionError
      \/ Calc._eval rt (Calc.BinOp l Calc.Div r) = Raise OverflowError)
  /\ (forall a b, x = Calc.VInt a -> y = Calc.VInt b -> b <> 0 ->
      ((exists f, Calc._eval rt (Calc.BinOp l Calc.Div r) = Ok (Calc.VFloat f))
       \/ Calc._eval rt (Calc.BinOp l Calc.Div r) = Raise OverflowError)
      /\ Calc._eval rt (Calc.BinOp l Calc.FloorDiv r) = Ok (Calc.VInt (a / b))
      /\ Calc._eval rt (Calc.BinOp l Calc.Add r) = Ok (Calc.VInt (a + b))
      /\ Calc._eval rt (Calc.BinOp l Calc.Sub r) = Ok (Calc.VInt (a - b))
      /\ Calc._eval rt (Calc.BinOp l Calc.Mult r) = Ok (Calc.VInt (a * b)))
  /\ (forall a fa fy, x = Calc.VInt a -> y = Calc.VFloat fy ->
      Calc.int_to_float a = Ok fa ->
      Calc._eval rt (Calc.BinOp l Calc.Add r) = Ok (Calc.VFloat (fa + fy)%float)
      /\ Calc._eval rt (Calc.BinOp l Calc.Sub r) = Ok (Calc.VFloat (fa - fy)%float)
      /\ Calc._eval rt (Calc.BinOp l Calc.Mult r) = Ok (Calc.VFloat (fa * fy)%float)).
Proof.
  intros Hl Hr Hx Hy.
  split; [apply eval_2_plus_3_times_4|].
  split; [apply eval_7_div_2|].
  split; [apply eval_7_floordiv_2|].
  split; [exact (truediv_real_operands rt l r x y Hl Hr Hx Hy)|].
  split.
  - intros a b -> -> Hb.
    destruct (int_operands_stay_int rt l r a b Hl Hr) as (Ha & Hs & Hm & Hf).
    split; [exact (truediv_int_operands rt l r a b Hl Hr Hb)|].
    repeat split; auto.
  - intros a fa fy -> -> Ha.
    exact (int_float_promotion rt l r a fa fy Hl Hr Ha).
Qed.

Lemma calc_standard_arithmetic_witness :
  exists f,
    Calc._eval bare_runtime (Calc.BinOp (Calc.int_lit 7) Calc.Div (Calc.int_lit 2))
    = Ok (Calc.VFloat f).
Proof.
  destruct (calc_standard_arithmetic bare_runtime
              (Calc.int_lit 7) (Calc.int_lit 2) (Calc.VInt 7) (Calc.VInt 2)
              eq_refl eq_refl eq_refl eq_refl)
    as (_ & H72 & _).
  exists 3.5%float. exact H72.
Defined.


(** ** The PIN lock *)

Section LockFacts.

Import Terminal.
Local Open Scope string_scope.

Lemma unlock_loop_wrong (s : session) (wrong : list string) :
  forallb (wrong_pin s) wrong = true ->
  unlock_loop s wrong = Blocked s (repeat "Wrong PIN." (List.length wrong)).
Proof.
  induction wrong as [|w ws IH]; simpl; intros H; [reflexivity|].
  apply andb_prop in H as [Hw Hws]. unfold wrong_pin in Hw.
  apply negb_true_iff in Hw. rewrite Hw, (IH Hws). reflexivity.
Qed.

Lemma unlock_loop_right (s : session) (wrong : list string) (pin : string)
    (rest : list string) :
  forallb (wrong_pin s) wrong = true ->
  wrong_pin s pin = false ->
  unlock_loop s (wrong ++ pin :: rest)
  = Return false s rest (repeat "Wrong PIN." (List.length wrong) ++ ["Unlocked."]).
Proof.
  intros Hw Hp. unfold wrong_pin in Hp. apply negb_false_iff in Hp.
  induction wrong as [|w ws IH]; simpl in *.
  - rewrite Hp. reflexivity.
  - apply andb_prop in Hw as [Hw Hws]. unfold wrong_pin in Hw.
    apply negb_true_iff in Hw. rewrite Hw, (IH Hws). reflexivity.
Qed.

Lemma alice_with_pin_hash :
  self_pin_hash alice_with_pin = Some (shash "1234")
  /\ do_setpin alice_session "" ["1234"; "1234"]
     = Return false alice_with_pin [] ["PIN updated."].
Proof. split; by_computation. Qed.

End LockFacts.

(** C6.  Without a PIN hash [lock] reports that no PIN is set and returns at
    once, the session as it was.  With one, the terminal is locked: after
    any number of wrong PINs the call is still at its prompt (it has not
    returned, whatever the number of attempts) and the session, accounts
    and disk included, is the one before; the first right PIN unlocks, the
    session again unchanged and the lines after it left for the command
    loop. *)
Theorem lock_holds_until_the_pin
    (s : Terminal.session) (arg : string) (wrong : list string)
    (pin : string) (rest : list string) :
  (Terminal.truthy (Terminal.self_pin_hash s) = false ->
   Terminal.do_lock s arg rest
   = Terminal.Return false s rest
       ["No PIN set. Use 'setpin' to create one."%string])
  /\ (Terminal.truthy (Terminal.self_pin_hash s) = true ->
      forallb (wrong_pin s) wrong = true ->
      Terminal.do_lock s arg wrong
      = Terminal.Blocked s
          ("Locked. Enter PIN to continue."%string
           :: repeat "Wrong PIN."%string (List.length wrong))
      /\ (wrong_pin s pin = false ->
          Terminal.do_lock s arg (wrong ++ pin :: rest)
          = Terminal.Return false s rest
              ("Locked. Enter PIN to continue."%string
               :: repeat "Wrong PIN."%string (List.length wrong)
               ++ ["Unlocked."%string]))).
Proof.
  unfold Terminal.do_lock. split.
  - intros ->. reflexivity.
  - intros -> Hw. simpl. split.
    + rewrite (unlock_loop_wrong s wrong Hw). reflexivity.
    + intros Hp. rewrite (unlock_loop_right s wrong pin rest Hw Hp). reflexivity.
Qed.

(** After [setpin 1234]: [0000], three times, leaves the terminal locked and
    the session untouched, and [1234] unlocks. *)
Lemma lock_holds_until_the_pin_witness :
  Terminal.do_lock alice_with_pin "" ["0000"; "0000"; "0000"]%string
  = Terminal.Blocked alice_with_pin
      ["Locked. Enter PIN to continue."; "Wrong PIN."; "Wrong PIN.";
       "Wrong PIN."]%string
  /\ Terminal.do_lock alice_with_pin ""
       ["0000"; "0000"; "0000"; "1234"; "now"]%string
     = Terminal.Return false alice_with_pin ["now"%string]
         ["Locked. Enter PIN to continue."; "Wrong PIN."; "Wrong PIN.";
          "Wrong PIN."; "Unlocked."]%string.
Proof.
  destruct (lock_holds_until_the_pin alice_with_pin ""
              ["0000"; "0000"; "0000"]%string "1234" ["now"%string])
    as [_ H].
  assert (Ht : Terminal.truthy (Terminal.self_pin_hash alice_with_pin) = true)
    by (vm_compute; reflexivity).
  assert (Hw : forallb (wrong_pin alice_with_pin)
                 ["0000"; "0000"; "0000"]%string = true)
    by (vm_compute; reflexivity).
  destruct (H Ht Hw) as [H1 H2].
  split; [exact H1|].
  apply H2. vm_compute. reflexivity.
Defined.


(** ** Categories *)

Section CategoryFacts.

Import Terminal.
Local Open Scope string_scope.

Lemma iterdir_inv (fs : FS.disk) (p : FS.path) (names : list string) :
  FS.iterdir fs p = Ok names ->
  exists q, FS.resolve fs p = Ok q /\ FS.node_at fs q = Some FS.Dir
            /\ names = FS.children fs q.
Proof.
  unfold FS.iterdir. destruct (FS.resolve fs p) as [q|e]; [|discriminate].
  destruct (FS.node_at fs q) as [[|text]|] eqn:Hq; try discriminate.
  intros [= <-]. eauto.
Qed.

Lemma iterdir_exists (fs : FS.disk) (p : FS.path) (names : list string) :
  FS.iterdir fs p = Ok names -> FS.exists_ fs p = true.
Proof.
  intros H. apply iterdir_inv in H as (q & Hr & Hq & _).
  unfold FS.exists_, FS.stat. rewrite Hr, Hq. reflexivity.
Qed.

Lemma rmdir_empty (fs : FS.disk) (p : FS.path) :
  FS.iterdir fs p = Ok [] ->
  exists q, FS.resolve fs p = Ok q /\ FS.rmdir fs p = Ok (delete q fs).
Proof.
  intros H. apply iterdir_inv in H as (q & Hr & Hq & Hc).
  exists q. split; [exact Hr|].
  unfold FS.rmdir. rewrite Hr, Hq, <- Hc. reflexivity.
Qed.

Lemma glob_txt_empty (fs : FS.disk) (p : FS.path) :
  FS.iterdir fs p = Ok [] -> FS.glob_txt fs p = [].
Proof. unfold FS.glob_txt. intros ->. reflexivity. Qed.

(** The dispatch of [categories del <name>]. *)
Lemma do_categories_del (s : session) (arg cat : string) (more stdin : list string) :
  PyStr.split arg = "del" :: cat :: more ->
  do_categories s arg stdin = categories_del s cat stdin.
Proof. unfold do_categories. intros ->. reflexivity. Qed.

Lemma categories_del_not_found (s : session) (name cat : string)
    (stdin : list string) :
  username s = Some name ->
  FS.exists_ (disk s) (category_dir (HOME s) name (PyStr.strip cat)) = false ->
  categories_del s cat stdin = Return false s stdin ["Category not found."].
Proof.
  intros Hu He. unfold categories_del, with_user. rewrite Hu, He. reflexivity.
Qed.

Lemma categories_del_not_empty (s : session) (name cat : string)
    (stdin : list string) (n : string) (names : list string) :
  username s = Some name ->
  FS.iterdir (disk s) (category_dir (HOME s) name (PyStr.strip cat))
  = Ok (n :: names) ->
  categories_del s cat stdin
  = Return false s stdin ["Category not empty. Delete files first."].
Proof.
  intros Hu Hi. unfold categories_del, with_user.
  rewrite Hu, (iterdir_exists _ _ _ Hi), Hi. reflexivity.
Qed.

Lemma categories_del_empty (s : session) (name cat : string)
    (stdin : list string) :
  username s = Some name ->
  FS.iterdir (disk s) (category_dir (HOME s) name (PyStr.strip cat)) = Ok [] ->
  exists q,
    FS.resolve (disk s) (category_dir (HOME s) name (PyStr.strip cat)) = Ok q
    /\ categories_del s cat stdin
       = Return false (set_disk s (delete q (disk s))) stdin
           ["Category '" ++ PyStr.strip cat ++ "' deleted."].
Proof.
  intros Hu Hi. destruct (rmdir_empty _ _ Hi) as (q & Hr & Hrm).
  exists q. split; [exact Hr|].
  unfold categories_del, with_user.
  rewrite Hu, (iterdir_exists _ _ _ Hi), Hi. simpl. rewrite Hrm. reflexivity.
Qed.

(** A call that changes the disk, or reports a deletion, went through
    [rmdir], on a directory without entries. *)
Lemma categories_del_changes_only_empty (s : session) (name cat : string)
    (stdin : list string) (b : bool) (s' : session) (stdin' out : list string) :
  username s = Some name ->
  categories_del s cat stdin = Return b s' stdin' out ->
  disk s' <> disk s \/ out = ["Category '" ++ PyStr.strip cat ++ "' deleted."] ->
  FS.iterdir (disk s) (category_dir (HOME s) name (PyStr.strip cat)) = Ok [].
Proof.
  intros Hu H Hd. unfold categories_del, with_user in H. rewrite Hu in H.
  assert (Hmsg : forall m : string,
             (m = "Category not found."
              \/ m = "Category not empty. Delete files first.") ->
             [m] <> ["Category '" ++ PyStr.strip cat ++ "' deleted."]).
  { intros m [-> | ->] Hm; vm_compute in Hm; discriminate Hm. }
  destruct (FS.exists_ _ _); simpl in H.
  - destruct (FS.iterdir _ _) as [[|n names]|e]; simpl in H;
      [reflexivity | | discriminate].
    injection H as <- <- <- <-. destruct Hd as [Hd|Hd]; [congruence|].
    exfalso. apply (Hmsg _ (or_intror eq_refl)). exact Hd.
  - injection H as <- <- <- <-. destruct Hd as [Hd|Hd]; [congruence|].
    exfalso. apply (Hmsg _ (or_introl eq_refl)). exact Hd.
Qed.

End CategoryFacts.

(** C3.  [categories del <name>], whatever the name: when the category is
    absent it reports "Category not found."; when its directory holds
    anything it reports "Category not empty. Delete files first."; in both
    cases nothing changes.  It changes the disk, or reports a deletion,
    only when the directory holds nothing, so that [view <name> all] would
    list no entry: then the directory, and nothing else, is removed. *)
Theorem remove_category_only_when_empty
    (s : Terminal.session) (name cat : string) (stdin : list string) :
  Terminal.username s = Some name ->
  let cdir := Terminal.category_dir (Terminal.HOME s) name (PyStr.strip cat) in
  (FS.exists_ (Terminal.disk s) cdir = false ->
   Terminal.categories_del s cat stdin
   = Terminal.Return false s stdin ["Category not found."%string])
  /\ (forall n names, FS.iterdir (Terminal.disk s) cdir = Ok (n :: names) ->
      Terminal.categories_del s cat stdin
      = Terminal.Return false s stdin
          ["Category not empty. Delete files first."%string])
  /\ (forall b s' stdin' out,
      Terminal.categories_del s cat stdin = Terminal.Return b s' stdin' out ->
      Terminal.disk s' <> Terminal.disk s
      \/ out = [("Category '" ++ PyStr.strip cat ++ "' deleted.")%string] ->
      Terminal.view_all s name (PyStr.strip cat) = []
      /\ FS.iterdir (Terminal.disk s) cdir = Ok [])
  /\ (FS.iterdir (Terminal.disk s) cdir = Ok [] ->
      exists q,
        FS.resolve (Terminal.disk s) cdir = Ok q
        /\ Terminal.categories_del s cat stdin
           = Terminal.Return false
               (Terminal.set_disk s (delete q (Terminal.disk s))) stdin
               [("Category '" ++ PyStr.strip cat ++ "' deleted.")%string]).
Proof.
  intros Hu cdir.
  split; [apply categories_del_not_found; exact Hu|].
  split; [intros n names; apply categories_del_not_empty; exact Hu|].
  split; [|apply categories_del_empty; exact Hu].
  intros b s' stdin' out Hdel Hchanged.
  pose proof (categories_del_changes_only_empty s name cat stdin b s' stdin'
                out Hu Hdel Hchanged) as Hempty.
  split; [|exact Hempty].
  unfold Terminal.view_all. rewrite (glob_txt_empty _ _ Hempty). reflexivity.
Qed.

(** [alice]'s category [notes] holds a note and is not removed; nothing
    changes. *)
Lemma remove_category_only_when_empty_witness :
  Terminal.categories_del alice_with_note "notes" []
  = Terminal.Return false alice_with_note []
      ["Category not empty. Delete files first."%string].
Proof.
  assert (Hu : Terminal.username alice_with_note = Some "alice"%string)
    by by_computation.
  destruct (remove_category_only_when_empty alice_with_note "alice" "notes"
              [] Hu) as (_ & H & _).
  apply (H "My_Title.txt"%string []). by_computation.
Defined.


(** ** Entries *)

Section DiskFacts.

Local Open Scope string_scope.

Lemma node_at_insert_ne (fs : FS.disk) (q k : FS.path) (n : FS.node) :
  k <> q -> FS.node_at (<[q := n]> fs) k = FS.node_at fs k.
Proof.
  intros Hk. destruct k as [|c k]; [reflexivity|].
  simpl. apply lookup_insert_ne. congruence.
Qed.

Lemma node_at_insert_eq (fs : FS.disk) (q : FS.path) (n : FS.node) :
  q <> [] -> FS.node_at (<[q := n]> fs) q = Some n.
Proof.
  destruct q as [|c q]; [congruence|]. intros _. simpl. apply lookup_insert_eq.
Qed.

(** Writing a node where no directory stands leaves every walk as it was. *)
Lemma walk_insert (fs : FS.disk) (q : FS.path) (n : FS.node)
    (rest : list string) (cur r : FS.path) :
  FS.node_at fs q <> Some FS.Dir ->
  FS.walk fs cur rest = Ok r ->
  FS.walk (<[q := n]> fs) cur rest = Ok r.
Proof.
  intros Hq. revert cur.
  induction rest as [|c rest IH]; simpl; intros cur H; [exact H|].
  destruct (FS.node_at fs cur) as [[|text]|] eqn:Hcur; try discriminate.
  assert (Hne : cur <> q) by congruence.
  rewrite (node_at_insert_ne fs q cur n Hne), Hcur.
  destruct (String.eqb c ".."); apply IH; exact H.
Qed.

Lemma write_text_inv (fs fs' : FS.disk) (p : FS.path) (text : string) :
  FS.write_text fs p text = Ok fs' ->
  exists q, FS.resolve fs p = Ok q /\ FS.node_at fs q <> Some FS.Dir
            /\ fs' = <[q := FS.File text]> fs.
Proof.
  unfold FS.write_text. destruct (FS.resolve fs p) as [q|e]; [|discriminate].
  destruct (FS.node_at fs q) as [[|t]|] eqn:Hq; try discriminate;
    intros [= <-]; exists q; repeat split; congruence.
Qed.

Lemma not_dir_not_root (fs : FS.disk) (q : FS.path) :
  FS.node_at fs q <> Some FS.Dir -> q <> [].
Proof. intros H ->. apply H. reflexivity. Qed.

Lemma write_then_read (fs fs' : FS.disk) (p : FS.path) (text : string) :
  FS.write_text fs p text = Ok fs' ->
  FS.read_text fs' p = Ok text /\ FS.exists_ fs' p = true.
Proof.
  intros H. apply write_text_inv in H as (q & Hr & Hq & ->).
  unfold FS.read_text, FS.exists_, FS.stat, FS.resolve in *.
  rewrite (walk_insert fs q _ p [] q Hq Hr).
  rewrite (node_at_insert_eq fs q _ (not_dir_not_root fs q Hq)).
  split; reflexivity.
Qed.

Lemma write_keeps_existing (fs fs' : FS.disk) (p p0 : FS.path) (text : string) :
  FS.write_text fs p text = Ok fs' ->
  FS.exists_ fs p0 = true -> FS.exists_ fs' p0 = true.
Proof.
  intros H. apply write_text_inv in H as (q & Hr & Hq & ->).
  unfold FS.exists_, FS.stat, FS.resolve.
  destruct (FS.walk fs [] p0) as [q0|e] eqn:H0; [|discriminate].
  rewrite (walk_insert fs q _ p0 [] q0 Hq H0).
  destruct (decide (q0 = q)) as [->|Hne].
  - rewrite (node_at_insert_eq fs q _ (not_dir_not_root fs q Hq)). reflexivity.
  - rewrite (node_at_insert_ne fs q q0 _ Hne). trivial.
Qed.

End DiskFacts.

Section StringFacts.

Local Open Scope string_scope.

Lemma string_app_inv_head (a b c : string) : a ++ b = a ++ c -> b = c.
Proof. induction a as [|x a IH]; simpl; intros H; [exact H|]. injection H. exact IH. Qed.

Lemma append_cons (c : ascii) (a b : string) :
  String c a ++ b = String c (a ++ b).
Proof. reflexivity. Qed.

Lemma append_nil (b : string) : "" ++ b = b.
Proof. reflexivity. Qed.

(** What [rstrip] removes is whitespace. *)
Lemma rstrip_spec (s : string) :
  exists w, s = PyStr.rstrip s ++ w /\ PyStr.forallb_str PyStr.isspace w = true.
Proof.
  induction s as [|c s (w & Hs & Hw)]; [exists ""; split; reflexivity|].
  simpl. destruct (PyStr.isspace c) eqn:Hc; simpl.
  - destruct (PyStr.rstrip s) as [|d r] eqn:Hr; simpl.
    + rewrite append_nil in Hs. subst s.
      exists (String c w). rewrite append_nil. split; [reflexivity|].
      simpl. rewrite Hc, Hw. reflexivity.
    + exists w. split; [|exact Hw]. rewrite append_cons. f_equal. exact Hs.
  - exists w. split; [|exact Hw]. rewrite append_cons. f_equal. exact Hs.
Qed.

(** [rstrip] does not see trailing whitespace. *)
Lemma rstrip_app_space (s w : string) :
  PyStr.forallb_str PyStr.isspace w = true ->
  PyStr.rstrip (s ++ w) = PyStr.rstrip s.
Proof.
  intros Hw. assert (Hz : PyStr.rstrip w = "").
  { induction w as [|c w IH]; [reflexivity|]. simpl in *.
    apply andb_prop in Hw as [Hc Hw]. rewrite Hc, (IH Hw). reflexivity. }
  induction s as [|c s IH]; [rewrite append_nil; exact Hz|].
  rewrite append_cons. simpl. rewrite IH. reflexivity.
Qed.

End StringFacts.


Section EntryFacts.

Import Terminal.
Local Open Scope string_scope.

Lemma write_entry_inv (s s' : session) (name category title content ts : string)
    (stdin stdin' out : list string) :
  username s = Some name ->
  _write_entry s category title content ts stdin = Return true s' stdin' out ->
  FS.exists_ (disk s) (category_dir (HOME s) name category) = true
  /\ exists fs',
       FS.write_text (disk s) (entry_path (HOME s) name category title)
         (entry_body category title content ts) = Ok fs'
       /\ s' = set_disk s fs' /\ stdin' = stdin /\ out = [].
Proof.
  intros Hu H. unfold _write_entry, with_user in H. rewrite Hu in H.
  destruct (FS.exists_ _ _); simpl in H; [|discriminate].
  split; [reflexivity|].
  destruct (FS.write_text _ _ _) as [fs'|e]; simpl in H; [|discriminate].
  injection H as <- <- <-. eauto.
Qed.

(** [split] does not see the whitespace [strip] removes. *)
Lemma split_aux_rstrip (cur : option string) (s : string) :
  PyStr.split_aux None cur (PyStr.rstrip s) = PyStr.split_aux None cur s.
Proof.
  revert cur. induction s as [|c s IH]; intros cur; [reflexivity|].
  simpl. destruct (PyStr.isspace c) eqn:Hc; simpl.
  - destruct (PyStr.rstrip s) as [|d r] eqn:Hr; simpl.
    + destruct cur as [w|]; rewrite <- IH; reflexivity.
    + rewrite Hc. destruct cur as [w|]; rewrite <- IH; reflexivity.
  - rewrite Hc. destruct cur as [w|]; rewrite <- IH; reflexivity.
Qed.

Lemma split_aux_lstrip (s : string) :
  PyStr.split_aux None None (PyStr.lstrip s) = PyStr.split_aux None None s.
Proof.
  induction s as [|c s IH]; [reflexivity|].
  simpl. destruct (PyStr.isspace c) eqn:Hc; [exact IH|].
  simpl. rewrite Hc. reflexivity.
Qed.

Lemma split_strip (s : string) : PyStr.split (PyStr.strip s) = PyStr.split s.
Proof.
  unfold PyStr.split, PyStr.split_max, PyStr.strip.
  rewrite split_aux_rstrip. apply split_aux_lstrip.
Qed.

(** Two titles made of the same words have the same normal form. *)
Lemma normalize_title_same_words (a b : string) :
  PyStr.split a = PyStr.split b -> normalize_title a = normalize_title b.
Proof. unfold normalize_title. rewrite !split_strip. now intros ->. Qed.

Lemma entry_body_differs (category title content ts : string) :
  entry_body category title content ts <> content.
Proof.
  destruct (rstrip_spec content) as (w & Hc & Hw).
  unfold entry_body. intros H. rewrite Hc in H at 2.
  apply string_app_inv_head in H. rewrite <- H in Hw.
  vm_compute in Hw. discriminate Hw.
Qed.

Lemma entry_body_rstrip (category title content content' ts : string) :
  PyStr.rstrip content' = PyStr.rstrip content ->
  entry_body category title content' ts = entry_body category title content ts.
Proof. unfold entry_body. now intros ->. Qed.

(** [do_save] and [do_edit] store through [_write_entry]. *)
Lemma do_save_writes_entry (s : session) (arg head content category title ts : string)
    (stdin : list string) :
  PyStr.split_once "|" arg = Some (head, content) ->
  PyStr.split_max (Some 1%nat) (PyStr.strip head) = [category; title] ->
  do_save s arg ts stdin
  = after_printing
      (if String.eqb category "passwords" then [passwords_warning] else [])
      (and_then (_write_entry s category title content ts stdin)
         (fun ok s stdin =>
            Return false s stdin
              (if ok then
                 [colored "92" "Saved:" ++ " " ++ category ++ "/"
                  ++ normalize_title title ++ ".txt"]
               else []))).
Proof. unfold do_save. intros -> ->. reflexivity. Qed.

Lemma do_edit_writes_entry (s : session) (name arg head content category title ts : string)
    (stdin : list string) :
  username s = Some name ->
  PyStr.split_once "|" arg = Some (head, content) ->
  PyStr.split_max (Some 1%nat) (PyStr.strip head) = [category; title] ->
  FS.exists_ (disk s) (entry_path (HOME s) name category title) = true ->
  do_edit s arg ts stdin
  = and_then (_write_entry s category title content ts stdin)
      (fun ok s stdin =>
         Return false s stdin (if ok then ["Entry updated."] else [])).
Proof.
  unfold do_edit, with_user. intros -> -> -> ->. reflexivity.
Qed.

(** After a successful [_write_entry], [view] of a title with the same
    normal form prints the stored text. *)
Lemma view_after_write (s s' : session) (name category title content ts : string)
    (stdin stdin' out : list string) (arg rest : string) (stdin2 : list string) :
  username s = Some name ->
  _write_entry s category title content ts stdin = Return true s' stdin' out ->
  category_and_rest arg = Some (category, rest) ->
  normalize_title rest = normalize_title title ->
  String.eqb (PyStr.lower rest) "all" = false ->
  do_view s' arg stdin2
  = Return false s' stdin2 [colored "92" (entry_body category title content ts)].
Proof.
  intros Hu Hw Ha Hn Hall.
  destruct (write_entry_inv _ _ _ _ _ _ _ _ _ _ Hu Hw)
    as (Hc & fs' & Hwt & -> & _ & _).
  unfold do_view, with_user. rewrite Ha. simpl. rewrite Hu.
  rewrite (write_keeps_existing _ _ _ _ _ Hwt Hc). simpl. rewrite Hall.
  unfold entry_path. rewrite Hn.
  destruct (write_then_read _ _ _ _ Hwt) as [Hrd Hex].
  unfold entry_path in Hex, Hrd. rewrite Hex. simpl. rewrite Hrd. reflexivity.
Qed.

End EntryFacts.


(** C4 (as amended).  Title lookup goes through normalization, which
    removes the whitespace around the title and between its words and
    keeps the letters as they are: once [save] has stored an entry in an
    existing category, [view] of a title made of the same words, in the
    same letter case, prints that entry (unless the title reads [all],
    which lists the category). *)
Theorem view_finds_title_up_to_whitespace
    (s s' : Terminal.session) (name category title content ts : string)
    (stdin stdin' out : list string) (arg rest : string)
    (stdin2 : list string) :
  Terminal.username s = Some name ->
  Terminal._write_entry s category title content ts stdin
  = Terminal.Return true s' stdin' out ->
  Terminal.category_and_rest arg = Some (category, rest) ->
  PyStr.split rest = PyStr.split title ->
  String.eqb (PyStr.lower rest) "all" = false ->
  Terminal.do_view s' arg stdin2
  = Terminal.Return false s' stdin2
      [Terminal.colored "92" (Terminal.entry_body category title content ts)].
Proof.
  intros Hu Hw Ha Hs Hall.
  exact (view_after_write s s' name category title content ts stdin stdin' out
           arg rest stdin2 Hu Hw Ha (normalize_title_same_words _ _ Hs) Hall).
Qed.

(** [save notes My Title|body], then [view notes My   Title]. *)
Lemma view_finds_title_up_to_whitespace_witness :
  Terminal.do_view alice_with_note "notes My   Title" []
  = Terminal.Return false alice_with_note []
      [Terminal.colored "92"
         (Terminal.entry_body "notes" "My Title" "body" "2024-05-01 09:30:00")].
Proof.
  apply (view_finds_title_up_to_whitespace alice_session alice_with_note
           "alice" "notes" "My Title" "body" "2024-05-01 09:30:00" [] [] []
           "notes My   Title" "My Title" []); by_computation.
Defined.

(** C4, as the specification words it, fails: after
    [save notes My Title|body], [view notes my   title] finds no entry,
    for the file is [My_Title.txt] and the title asked normalizes to
    [my_title]. *)
Lemma view_is_case_sensitive :
  Terminal.do_save alice_session "notes My Title|body" "2024-05-01 09:30:00" []
  = Terminal.Return false alice_with_note []
      [(Terminal.colored "92" "Saved:" ++ " notes/My_Title.txt")%string]
  /\ normalize_title "My Title" = "My_Title"%string
  /\ normalize_title "my   title" = "my_title"%string
  /\ Terminal.do_view alice_with_note "notes my   title" []
     = Terminal.Return false alice_with_note [] ["Entry not found."%string].
Proof. repeat split; by_computation. Qed.

(** C9.  What [_write_entry] stores, for [save] and [edit] alike, is the
    content without its trailing whitespace, then a blank line and the
    footer [---], [Saved on: <timestamp>], [Title: <title>],
    [Category: <category>].  Contents that differ in trailing whitespace
    only are stored, at the same clock reading, as the same text, the
    session being the same after either; and the stored text is never the
    content that was given. *)
Theorem stored_entry_form
    (s s' : Terminal.session) (name category title content ts : string)
    (stdin stdin' out : list string) :
  Terminal.username s = Some name ->
  Terminal._write_entry s category title content ts stdin
  = Terminal.Return true s' stdin' out ->
  FS.read_text (Terminal.disk s')
    (Terminal.entry_path (Terminal.HOME s) name category title)
  = Ok (PyStr.rstrip content ++ Terminal.LF ++ Terminal.LF
        ++ "---" ++ Terminal.LF
        ++ "Saved on: " ++ ts ++ Terminal.LF
        ++ "Title: " ++ title ++ Terminal.LF
        ++ "Category: " ++ category ++ Terminal.LF)%string
  /\ (forall content',
      PyStr.rstrip content' = PyStr.rstrip content ->
      Terminal._write_entry s category title content' ts stdin
      = Terminal.Return true s' stdin' out)
  /\ Terminal.entry_body category title content ts <> content.
Proof.
  intros Hu Hw.
  destruct (write_entry_inv _ _ _ _ _ _ _ _ _ _ Hu Hw)
    as (Hc & fs' & Hwt & -> & -> & ->).
  split; [|split].
  - destruct (write_then_read _ _ _ _ Hwt) as [Hrd _]. exact Hrd.
  - intros content' Hr. unfold Terminal._write_entry.
    rewrite (entry_body_rstrip category title content content' ts Hr).
    exact Hw.
  - apply entry_body_differs.
Qed.

(** The note saved with trailing blanks and a newline is the note saved
    without. *)
Lemma stored_entry_form_witness :
  Terminal._write_entry alice_session "notes" "My Title"
    ("body  " ++ Terminal.LF)%string "2024-05-01 09:30:00" []
  = Terminal.Return true alice_with_note [] [].
Proof.
  assert (Hu : Terminal.username alice_session = Some "alice"%string)
    by by_computation.
  assert (Hw : Terminal._write_entry alice_session "notes" "My Title" "body"
                 "2024-05-01 09:30:00" []
               = Terminal.Return true alice_with_note [] [])
    by by_computation.
  destruct (stored_entry_form alice_session alice_with_note "alice" "notes"
              "My Title" "body" "2024-05-01 09:30:00" [] [] [] Hu Hw)
    as (_ & H & _).
  apply H. by_computation.
Defined.


(** ** Accounts *)

Section AccountFacts.

Import Terminal.
Local Open Scope string_scope.

Lemma dict_get_set_eq {V : Type} (d : pydict V) (k : string) (v : V) :
  dict_get (dict_set d k v) k = Some v.
Proof.
  induction d as [|[k' v'] d IH]; simpl.
  - now rewrite String.eqb_refl.
  - destruct (String.eqb k' k) eqn:Hk; simpl.
    + now rewrite String.eqb_refl.
    + now rewrite Hk.
Qed.

Lemma dict_get_set_ne {V : Type} (d : pydict V) (k j : string) (v : V) :
  String.eqb k j = false -> dict_get (dict_set d k v) j = dict_get d j.
Proof.
  intros Hkj. induction d as [|[k' v'] d IH]; simpl.
  - now rewrite Hkj.
  - destruct (String.eqb k' k) eqn:Hk; simpl.
    + apply String.eqb_eq in Hk. subst k'. now rewrite Hkj.
    + now rewrite IH.
Qed.

Lemma after_printing_nil {A : Type} (r : reply A) : after_printing [] r = r.
Proof. destruct r; reflexivity. Qed.

Lemma and_then_return {A B : Type} (a : A) (s : session)
    (stdin out : list string) (k : A -> session -> list string -> reply B) :
  and_then (Return a s stdin out) k = after_printing out (k a s stdin).
Proof. reflexivity. Qed.

Lemma save_users_inv (s s' : session) :
  _save_users s = Ok s' -> exists fs, s' = set_disk s fs.
Proof.
  unfold _save_users. intros H.
  apply bind_ok_inv in H as (fs & _ & [= <-]). eauto.
Qed.

Lemma init_user_space_inv (s s' : session) (name : string) :
  _init_user_space s name = Ok s' -> exists fs, s' = set_disk s fs.
Proof.
  unfold _init_user_space. intros H.
  apply bind_ok_inv in H as (fs1 & _ & H).
  apply bind_ok_inv in H as (fs2 & _ & H).
  apply bind_ok_inv in H as (fs3 & _ & H).
  apply bind_ok_inv in H as (fs4 & _ & [= <-]). eauto.
Qed.

(** The accounts file holds the text of the accounts once they are saved. *)
Lemma save_users_persists (s s' : session) :
  _save_users s = Ok s' ->
  FS.read_text (disk s') (USERS_FILE (HOME s')) = Ok (json_dumps_users (users s))
  /\ users s' = users s.
Proof.
  unfold _save_users, safe_json_save. intros H.
  apply bind_ok_inv in H as (fs & H & [= <-]).
  apply bind_ok_inv in H as (fs1 & _ & H).
  split; [|reflexivity]. simpl.
  destruct (write_then_read _ _ _ _ H) as [Hrd _]. exact Hrd.
Qed.

Lemma choose_username_fresh (s : session) (line : string) (rest : list string) :
  PyStr.is_empty (PyStr.strip line) = false ->
  dict_contains (users s) (PyStr.strip line) = false ->
  choose_username s (line :: rest) = Return (PyStr.strip line) s rest [].
Proof. simpl. intros -> ->. reflexivity. Qed.

Lemma choose_password_confirmed (s : session) (line : string) (rest : list string) :
  PyStr.is_empty (PyStr.strip line) = false ->
  choose_password s (line :: line :: rest) = Return (PyStr.strip line) s rest [].
Proof. simpl. intros ->. rewrite String.eqb_refl. reflexivity. Qed.

Lemma optional_pin_declined (s : session) (line : string) (rest : list string) :
  String.eqb (PyStr.lower (PyStr.strip line)) "y" = false ->
  optional_pin s (line :: rest) = Return None s rest [].
Proof. simpl. intros ->. reflexivity. Qed.

(** What a registration that returns has done. *)
Lemma register_user_inv (s s1 : session) (u p a : string)
    (rest rest1 out : list string) :
  PyStr.is_empty (PyStr.strip u) = false ->
  dict_contains (users s) (PyStr.strip u) = false ->
  PyStr.is_empty (PyStr.strip p) = false ->
  String.eqb (PyStr.lower (PyStr.strip a)) "y" = false ->
  _register_user s (u :: p :: p :: a :: rest) = Return tt s1 rest1 out ->
  users s1 = dict_set (users s) (PyStr.strip u)
               {| password_hash := shash (PyStr.strip p); pin_hash := None |}
  /\ username s1 = Some (PyStr.strip u)
  /\ authenticated s1 = true
  /\ self_pin_hash s1 = None
  /\ rest1 = rest
  /\ HOME s1 = HOME s.
Proof.
  intros Hu Hf Hp Ha H. unfold _register_user in H.
  rewrite (choose_username_fresh s u _ Hu Hf), and_then_return in H.
  cbv beta in H.
  rewrite (choose_password_confirmed s p _ Hp), and_then_return in H.
  cbv beta in H.
  rewrite (optional_pin_declined s a _ Ha), and_then_return in H.
  cbv beta in H.
  rewrite !after_printing_nil in H. unfold or_uncaught in H.
  destruct (_save_users _) as [s2|e] eqn:Hs2; [|discriminate].
  destruct (_init_user_space _ _) as [s4|e] eqn:Hs4; [|discriminate].
  injection H as <- <- <-.
  apply save_users_inv in Hs2 as (fs2 & ->).
  apply init_user_space_inv in Hs4 as (fs4 & ->).
  repeat split; reflexivity.
Qed.

Lemma credentials_ok_iff (s : session) (name pw : string) (a : account) :
  dict_get (users s) name = Some a ->
  credentials_ok s name pw = String.eqb (password_hash a) (shash pw).
Proof. unfold credentials_ok. now intros ->. Qed.

(** One turn of the login loop, on right and on wrong credentials. *)
Lemma login_attempt_right (n : nat) (s : session) (u p : string)
    (rest : list string) :
  credentials_ok s (PyStr.strip u) (PyStr.strip p) = true ->
  login_attempts (S n) s (u :: p :: rest)
  = let name := PyStr.strip u in
    let pin := match dict_get (users s) name with
               | Some a => pin_hash a
               | None => None
               end in
    after_printing [colored "92" "Login successful."]
      (or_uncaught (_init_user_space (logged_in s name pin) name)
         (logged_in s name pin) (fun s2 => Return tt s2 rest [])).
Proof. simpl. intros ->. reflexivity. Qed.

Lemma login_attempt_wrong (n : nat) (s : session) (u p : string)
    (rest : list string) :
  credentials_ok s (PyStr.strip u) (PyStr.strip p) = false ->
  login_attempts (S n) s (u :: p :: rest)
  = after_printing [colored "91" "Invalid credentials."]
      (login_attempts n s rest).
Proof. simpl. intros ->. reflexivity. Qed.

End AccountFacts.


(** C5.  After a registration under a new, non-empty user name with a
    non-empty password (both as typed, the surrounding whitespace
    removed), the accounts hold the digest of the password under that
    name; a login with the same name and password is accepted, and one
    with a password whose digest differs from the stored one is refused
    with "Invalid credentials.".  The comparison is between digests, and
    [shash] is a function: equal passwords have equal digests. *)
Theorem register_then_authenticate
    (s s1 s2 : Terminal.session) (u p p' a : string)
    (rest rest1 out stdin2 : list string) :
  PyStr.is_empty (PyStr.strip u) = false ->
  Terminal.dict_contains (Terminal.users s) (PyStr.strip u) = false ->
  PyStr.is_empty (PyStr.strip p) = false ->
  String.eqb (PyStr.lower (PyStr.strip a)) "y" = false ->
  Terminal._register_user s (u :: p :: p :: a :: rest)
  = Terminal.Return tt s1 rest1 out ->
  Terminal.users s2 = Terminal.users s1 ->
  Terminal.dict_get (Terminal.users s1) (PyStr.strip u)
  = Some {| Terminal.password_hash := shash (PyStr.strip p);
            Terminal.pin_hash := None |}
  /\ Terminal._login_user s2 (u :: p :: stdin2)
     = Terminal.after_printing
         [Terminal.colored "92" "Login successful."]
         (Terminal.or_uncaught
            (Terminal._init_user_space
               (Terminal.logged_in s2 (PyStr.strip u) None) (PyStr.strip u))
            (Terminal.logged_in s2 (PyStr.strip u) None)
            (fun s3 => Terminal.Return tt s3 stdin2 []))
  /\ (String.eqb (shash (PyStr.strip p)) (shash (PyStr.strip p')) = false ->
      Terminal._login_user s2 (u :: p' :: stdin2)
      = Terminal.after_printing
          [Terminal.colored "91" "Invalid credentials."]
          (Terminal.login_attempts 4 s2 stdin2)).
Proof.
  intros Hu Hf Hp Ha Hr Hs2.
  destruct (register_user_inv s s1 u p a rest rest1 out Hu Hf Hp Ha Hr)
    as (Husers & _).
  assert (Hget : Terminal.dict_get (Terminal.users s1) (PyStr.strip u)
                 = Some {| Terminal.password_hash := shash (PyStr.strip p);
                           Terminal.pin_hash := None |})
    by (rewrite Husers; apply dict_get_set_eq).
  split; [exact Hget|]. rewrite <- Hs2 in Hget.
  unfold Terminal._login_user. split.
  - rewrite login_attempt_right.
    + cbv zeta. rewrite Hget. reflexivity.
    + rewrite (credentials_ok_iff _ _ _ _ Hget). apply String.eqb_refl.
  - intros Hne. apply login_attempt_wrong.
    rewrite (credentials_ok_iff _ _ _ _ Hget). exact Hne.
Qed.

(** [alice] registers with [secret]; a later run that holds her account
    refuses [Secret]. *)
Lemma register_then_authenticate_witness :
  Terminal._login_user alice_session ["alice"; "Secret"; "alice"; "secret"]%string
  = Terminal.after_printing
      [Terminal.colored "91" "Invalid credentials."]
      (Terminal.login_attempts 4 alice_session ["alice"; "secret"]%string).
Proof.
  assert (Hr : Terminal._register_user fresh_session
                 ["alice"; "secret"; "secret"; "n"]%string
               = Terminal.Return tt alice_session []
                   [Terminal.colored "92"
                      "User 'alice' registered and logged in."])
    by by_computation.
  destruct (register_then_authenticate fresh_session alice_session
              alice_session "alice" "secret" "Secret" "n" [] [] _
              ["alice"; "secret"]%string
              eq_refl eq_refl eq_refl eq_refl Hr eq_refl)
    as (_ & _ & H).
  apply H. by_computation.
Defined.


(** ** The login throttle *)

Section LoginFacts.

Import Terminal.
Local Open Scope string_scope.

(** [n] wrong attempts in a row use up [n] turns of the loop. *)
Lemma login_attempts_wrong (s : session) (attempts : list (string * string))
    (k : nat) (rest : list string) :
  forallb (wrong_attempt s) attempts = true ->
  login_attempts (List.length attempts + k) s (attempt_lines attempts ++ rest)
  = after_printing
      (repeat (colored "91" "Invalid credentials.") (List.length attempts))
      (login_attempts k s rest).
Proof.
  induction attempts as [|[u p] l IH]; intros H.
  - simpl. now rewrite after_printing_nil.
  - simpl in H. apply andb_prop in H as [Hw Hl].
    unfold wrong_attempt in Hw. simpl in Hw. apply negb_true_iff in Hw.
    change (login_attempts (S (List.length l + k)) s
              (u :: p :: attempt_lines l ++ rest)
            = after_printing
                (colored "91" "Invalid credentials."
                 :: repeat (colored "91" "Invalid credentials.") (List.length l))
                (login_attempts k s rest)).
    rewrite (login_attempt_wrong _ s u p _ Hw), (IH Hl).
    destruct (login_attempts k s rest); reflexivity.
Qed.

(** Five wrong attempts end the process with status 1, whatever is typed
    after them. *)
Lemma login_exits_after_five_failures (s : session)
    (attempts : list (string * string)) (rest : list string) :
  List.length attempts = 5%nat ->
  forallb (wrong_attempt s) attempts = true ->
  _login_user s (attempt_lines attempts ++ rest)
  = Exit 1 s
      (repeat (colored "91" "Invalid credentials.") 5
       ++ ["Too many failed attempts. Exiting."]).
Proof.
  intros Hlen Hw. unfold _login_user.
  pose proof (login_attempts_wrong s attempts 0 rest Hw) as H.
  rewrite Hlen in H. simpl Nat.add in H. rewrite H. reflexivity.
Qed.

(** Fewer than five wrong attempts leave the loop running: the next
    attempt is examined. *)
Lemma login_continues_before_five_failures (s : session)
    (attempts : list (string * string)) (rest : list string) :
  (List.length attempts < 5)%nat ->
  forallb (wrong_attempt s) attempts = true ->
  _login_user s (attempt_lines attempts ++ rest)
  = after_printing
      (repeat (colored "91" "Invalid credentials.") (List.length attempts))
      (login_attempts (5 - List.length attempts) s rest).
Proof.
  intros Hlen Hw. unfold _login_user.
  replace 5%nat with (List.length attempts + (5 - List.length attempts))%nat
    at 1 by lia.
  apply login_attempts_wrong. exact Hw.
Qed.

End LoginFacts.

(** Closed runs of the login: [alice] is let in with [secret], her user
    space being there already; five wrong passwords end the process, the
    right one typed after them unread. *)
Example login_as_alice :
  Terminal._login_user alice_session ["alice"; "secret"; "now"]%string
  = Terminal.Return tt alice_session ["now"%string]
      [Terminal.colored "92" "Login successful."].
Proof. by_computation. Qed.

Example login_five_failures :
  Terminal._login_user alice_session
    (attempt_lines (repeat ("alice", "guess")%string 5)
     ++ ["alice"; "secret"]%string)
  = Terminal.Exit 1 alice_session
      (repeat (Terminal.colored "91" "Invalid credentials.") 5
       ++ ["Too many failed attempts. Exiting."%string]).
Proof.
  apply login_exits_after_five_failures; by_computation.
Qed.

(** C2, at the input where the code departs from it.  [alice], logged in,
    types [save notes a/b|x]: the file [a/b.txt] would lie in a directory
    [a] that does not exist, [write_text] raises [FileNotFoundError],
    [do_save] catches nothing and neither do [cmdloop] and [main]; the
    process ends with status 1 although no login failed.  (The throttle
    itself is [login_exits_after_five_failures] above.) *)
Theorem save_under_missing_directory_is_fatal :
  Terminal.do_save alice_session "notes a/b|x" "2024-05-01 09:30:00" []
  = Terminal.Uncaught FileNotFoundError alice_session []
  /\ Terminal.cmdloop_fate
       (Terminal.do_save alice_session "notes a/b|x" "2024-05-01 09:30:00" [])
     = Terminal.Dies 1
  /\ Terminal.authenticated alice_session = true.
Proof. repeat split; by_computation. Qed.


(** ** Setting the PIN *)

Section SetPinFacts.

Import Terminal.
Local Open Scope string_scope.

Lemma store_pin_inv (s s' : session) (pin : option string) :
  store_pin s pin = Ok s' ->
  exists name a,
    username s = Some name /\ dict_get (users s) name = Some a
    /\ users s' = dict_set (users s) name
                    {| password_hash := password_hash a; pin_hash := pin |}
    /\ self_pin_hash s' = self_pin_hash s
    /\ username s' = username s
    /\ HOME s' = HOME s
    /\ FS.read_text (disk s') (USERS_FILE (HOME s'))
       = Ok (json_dumps_users (users s')).
Proof.
  unfold store_pin. intros H.
  destruct (username s) as [name|] eqn:Hu; [|discriminate].
  destruct (dict_get (users s) name) as [a|] eqn:Ha; [|discriminate].
  destruct (save_users_persists _ _ H) as [Hrd Hus].
  apply save_users_inv in H as (fs & ->).
  exists name, a. simpl in *. repeat split; try reflexivity; assumption.
Qed.

Lemma new_pin_invalid (s : session) (line : string) (rest : list string) :
  valid_pin (PyStr.strip line) = false ->
  new_pin_loop s (line :: rest)
  = after_printing ["Invalid PIN format."] (new_pin_loop s rest).
Proof. simpl. intros ->. reflexivity. Qed.

Lemma new_pin_confirmed (s : session) (line : string) (rest : list string) :
  valid_pin (PyStr.strip line) = true ->
  new_pin_loop s (line :: line :: rest)
  = let h := Some (shash (PyStr.strip line)) in
    or_uncaught (store_pin (set_pin_hash s h) h) (set_pin_hash s h)
      (fun s2 => Return false s2 rest ["PIN updated."]).
Proof. simpl. intros ->. rewrite String.eqb_refl. reflexivity. Qed.

(** What [str.isdigit] and the length test accept. *)
Lemma valid_pin_spec (pin : string) :
  valid_pin pin = true <->
  PyStr.forallb_str PyStr.isdigit_char pin = true
  /\ (4 <= String.length pin <= 8)%nat.
Proof.
  unfold valid_pin, PyStr.len, PyStr.isdigit.
  rewrite !andb_true_iff, !Z.leb_le. split.
  - intros [[Hd H4] H8]. split; [|lia].
    destruct pin; [discriminate|exact Hd].
  - intros [Hd [H4 H8]]. repeat split; try lia.
    destruct pin; [simpl in H4; lia|exact Hd].
Qed.

End SetPinFacts.

(** C8 (as amended).  When a PIN is set and the old PIN typed does not
    match it, [setpin] reports "Incorrect old PIN." and returns, nothing
    changed.  A new PIN is valid when it has 4 to 8 characters, all of
    them digits for [str.isdigit] (the ten decimal digits and the
    superscripts two, three and one); an invalid one is reported with
    "Invalid PIN format." and asked again, nothing changed.  A valid one,
    confirmed, becomes the PIN of the session and of the account, and the
    accounts file holds the accounts so updated. *)
Theorem setpin_checks_then_persists
    (s s' : Terminal.session) (arg old line : string)
    (rest rest' out : list string) :
  (Terminal.truthy (Terminal.self_pin_hash s) = true ->
   Terminal.eq_hash (shash (PyStr.strip old)) (Terminal.self_pin_hash s) = false ->
   Terminal.do_setpin s arg (old :: rest)
   = Terminal.Return false s rest ["Incorrect old PIN."%string])
  /\ (Terminal.valid_pin (PyStr.strip line) = true <->
      PyStr.forallb_str PyStr.isdigit_char (PyStr.strip line) = true
      /\ (4 <= String.length (PyStr.strip line) <= 8)%nat)
  /\ (Terminal.valid_pin (PyStr.strip line) = false ->
      Terminal.new_pin_loop s (line :: rest)
      = Terminal.after_printing ["Invalid PIN format."%string]
          (Terminal.new_pin_loop s rest))
  /\ (Terminal.truthy (Terminal.self_pin_hash s) = false ->
      Terminal.do_setpin s arg rest = Terminal.new_pin_loop s rest)
  /\ (Terminal.truthy (Terminal.self_pin_hash s) = true ->
      Terminal.eq_hash (shash (PyStr.strip old)) (Terminal.self_pin_hash s) = true ->
      Terminal.do_setpin s arg (old :: rest) = Terminal.new_pin_loop s rest)
  /\ (Terminal.valid_pin (PyStr.strip line) = true ->
      Terminal.new_pin_loop s (line :: line :: rest)
      = Terminal.Return false s' rest' out ->
      out = ["PIN updated."%string] /\ rest' = rest
      /\ Terminal.self_pin_hash s' = Some (shash (PyStr.strip line))
      /\ (exists name a,
            Terminal.username s = Some name
            /\ Terminal.dict_get (Terminal.users s) name = Some a
            /\ Terminal.dict_get (Terminal.users s') name
               = Some {| Terminal.password_hash := Terminal.password_hash a;
                         Terminal.pin_hash := Some (shash (PyStr.strip line)) |})
      /\ FS.read_text (Terminal.disk s')
           (Terminal.USERS_FILE (Terminal.HOME s'))
         = Ok (Terminal.json_dumps_users (Terminal.users s'))).
Proof.
  split; [|split; [|split; [|split; [|split]]]].
  - unfold Terminal.do_setpin. intros -> ->. reflexivity.
  - apply valid_pin_spec.
  - apply new_pin_invalid.
  - unfold Terminal.do_setpin. intros ->. reflexivity.
  - unfold Terminal.do_setpin. intros -> ->. reflexivity.
  - intros Hv H. rewrite (new_pin_confirmed s line rest Hv) in H.
    cbv zeta in H. unfold Terminal.or_uncaught in H.
    destruct (Terminal.store_pin _ _) as [s2|e] eqn:Hst; [|discriminate].
    injection H as <- <- <-.
    apply store_pin_inv in Hst
      as (name & a & Hu & Ha & Hus & Hpin & _ & _ & Hrd).
    repeat split; try reflexivity.
    + rewrite Hpin. reflexivity.
    + exists name, a. repeat split; [exact Hu|exact Ha|].
      rewrite Hus. apply dict_get_set_eq.
    + exact Hrd.
Qed.

(** [alice] has the PIN [1234]: the old PIN [0000] is refused and nothing
    changes. *)
Lemma setpin_checks_then_persists_witness :
  Terminal.do_setpin alice_with_pin "" ["0000"; "4321"; "4321"]%string
  = Terminal.Return false alice_with_pin ["4321"; "4321"]%string
      ["Incorrect old PIN."%string].
Proof.
  destruct (setpin_checks_then_persists alice_with_pin alice_with_pin ""
              "0000" "4321" ["4321"; "4321"]%string [] [])
    as (H & _).
  apply H; by_computation.
Defined.

(** C8, as the specification words it, fails: a PIN of four superscript
    twos is no string of decimal digits, and [setpin] takes it. *)
Lemma setpin_accepts_superscript_digits :
  PyStr.forallb_str PyStr.isdecimal_ascii_char superscript_pin = false
  /\ Terminal.valid_pin superscript_pin = true
  /\ Terminal.do_setpin alice_session "" [superscript_pin; superscript_pin]
     = Terminal.Return false
         (session_of
            (Terminal.do_setpin alice_session ""
               [superscript_pin; superscript_pin]))
         [] ["PIN updated."%string]
  /\ Terminal.self_pin_hash
       (session_of
          (Terminal.do_setpin alice_session ""
             [superscript_pin; superscript_pin]))
     = Some (shash superscript_pin).
Proof. repeat split; by_computation. Qed.


(** ** Loading JSON records *)

Section JsonLoadFacts.

Import Terminal.
Local Open Scope string_scope.

Variable A : Type.
Variable json_loads : string -> result A.

Lemma read_text_exists (fs : FS.disk) (p : FS.path) (text : string) :
  FS.read_text fs p = Ok text -> FS.exists_ fs p = true.
Proof.
  unfold FS.read_text, FS.exists_.
  destruct (FS.stat fs p) as [[|t]|e]; intros H; try discriminate; reflexivity.
Qed.

Lemma safe_json_load_total (fs : FS.disk) (p : FS.path) (default : A) :
  exists v, safe_json_load json_loads fs p default = Ok v.
Proof.
  unfold safe_json_load. destruct (FS.exists_ fs p); [|eauto].
  destruct (FS.read_text fs p) as [text|e]; simpl; [|eauto].
  destruct (json_loads text) as [v|e]; simpl; eauto.
Qed.

Lemma safe_json_load_absent (fs : FS.disk) (p : FS.path) (default : A) :
  FS.exists_ fs p = false -> safe_json_load json_loads fs p default = Ok default.
Proof. unfold safe_json_load. intros ->. reflexivity. Qed.

Lemma safe_json_load_unreadable (fs : FS.disk) (p : FS.path) (default : A)
    (e : exn) :
  FS.read_text fs p = Raise e ->
  safe_json_load json_loads fs p default = Ok default.
Proof.
  unfold safe_json_load. intros ->. destruct (FS.exists_ fs p); reflexivity.
Qed.

Lemma safe_json_load_unparsable (fs : FS.disk) (p : FS.path) (default : A)
    (text : string) (e : exn) :
  FS.read_text fs p = Ok text -> json_loads text = Raise e ->
  safe_json_load json_loads fs p default = Ok default.
Proof.
  unfold safe_json_load. intros Hr Hl. rewrite Hr. simpl. rewrite Hl.
  destruct (FS.exists_ fs p); reflexivity.
Qed.

Lemma safe_json_load_parsed (fs : FS.disk) (p : FS.path) (default : A)
    (text : string) (v : A) :
  FS.read_text fs p = Ok text -> json_loads text = Ok v ->
  safe_json_load json_loads fs p default = Ok v.
Proof.
  unfold safe_json_load. intros Hr Hl.
  rewrite (read_text_exists fs p text Hr), Hr. simpl. rewrite Hl. reflexivity.
Qed.

End JsonLoadFacts.

Section LoadUsersFacts.

Import Terminal.
Local Open Scope string_scope.

(** A walk that goes one component further went through a directory. *)
Lemma walk_snoc (fs : FS.disk) (p : FS.path) (c : string) (cur r : FS.path) :
  FS.walk fs cur (p ++ [c]) = Ok r ->
  exists q, FS.walk fs cur p = Ok q /\ FS.node_at fs q = Some FS.Dir.
Proof.
  revert cur. induction p as [|a p IH]; simpl; intros cur H.
  - destruct (FS.node_at fs cur) as [[|t]|] eqn:Hc; try discriminate. eauto.
  - destruct (FS.node_at fs cur) as [[|t]|] eqn:Hc; try discriminate.
    destruct (String.eqb a ".."); apply IH in H; exact H.
Qed.

(** [mkdir] with [parents] and [exist_ok] on a directory that is there. *)
Lemma mkdir_p_existing (fs : FS.disk) (p q : FS.path) :
  FS.resolve fs p = Ok q -> FS.node_at fs q = Some FS.Dir ->
  FS.mkdir_p fs p = Ok fs.
Proof.
  intros Hr Hq. unfold FS.mkdir_p.
  assert (Hmk : FS.os_mkdir fs p = Raise FileExistsError)
    by (unfold FS.os_mkdir; rewrite Hr, Hq; reflexivity).
  assert (Hd : FS.is_dir fs p = true)
    by (unfold FS.is_dir, FS.stat; rewrite Hr, Hq; reflexivity).
  destruct (List.length p); simpl; rewrite Hmk, Hd; reflexivity.
Qed.

Lemma users_file_path (home : FS.path) :
  USERS_FILE home = (APP_ROOT home ++ ["users.json"])%list.
Proof. reflexivity. Qed.

(** A damaged accounts file is read as no account at all. *)
Lemma load_users_damaged (json_loads : string -> result (pydict account))
    (s : session) (text : string) (e : exn) :
  FS.read_text (disk s) (USERS_FILE (HOME s)) = Ok text ->
  json_loads text = Raise e ->
  _load_users json_loads s = Ok (set_users s []).
Proof.
  intros Hr Hl. unfold _load_users, ensure_dirs.
  assert (Hroot : FS.mkdir_p (disk s) (APP_ROOT (HOME s)) = Ok (disk s)).
  { pose proof Hr as Hst. unfold FS.read_text, FS.stat in Hst.
    destruct (FS.resolve (disk s) (USERS_FILE (HOME s))) as [r|e'] eqn:Hres;
      [|discriminate].
    rewrite users_file_path in Hres. apply walk_snoc in Hres as (q & Hq & Hd).
    exact (mkdir_p_existing _ _ q Hq Hd). }
  rewrite Hroot. simpl.
  rewrite (safe_json_load_unparsable _ json_loads _ _ [] text e Hr Hl).
  reflexivity.
Qed.

End LoadUsersFacts.

(** C10.  [safe_json_load] always returns: the default when the file is
    absent, when it cannot be read and when [json.loads] rejects its text,
    and what [json.loads] makes of the text otherwise.  So [_load_users],
    on an accounts file whose text does not parse, gives the empty
    mapping of accounts and raises nothing. *)
Theorem json_load_never_raises
    (A : Type) (json_loads : string -> result A)
    (fs : FS.disk) (p : FS.path) (default : A)
    (loads_users : string -> result (Terminal.pydict Terminal.account))
    (s : Terminal.session) :
  (exists v, Terminal.safe_json_load json_loads fs p default = Ok v)
  /\ (FS.exists_ fs p = false ->
      Terminal.safe_json_load json_loads fs p default = Ok default)
  /\ (forall e, FS.read_text fs p = Raise e ->
      Terminal.safe_json_load json_loads fs p default = Ok default)
  /\ (forall text e, FS.read_text fs p = Ok text -> json_loads text = Raise e ->
      Terminal.safe_json_load json_loads fs p default = Ok default)
  /\ (forall text v, FS.read_text fs p = Ok text -> json_loads text = Ok v ->
      Terminal.safe_json_load json_loads fs p default = Ok v)
  /\ (forall text e,
      FS.read_text (Terminal.disk s) (Terminal.USERS_FILE (Terminal.HOME s))
      = Ok text ->
      loads_users text = Raise e ->
      Terminal._load_users loads_users s = Ok (Terminal.set_users s [])).
Proof.
  split; [apply safe_json_load_total|].
  split; [apply safe_json_load_absent|].
  split; [intros e; apply safe_json_load_unreadable|].
  split; [intros text e; apply safe_json_load_unparsable|].
  split; [intros text v; apply safe_json_load_parsed|].
  intros text e. apply load_users_damaged.
Qed.

(** [alice]'s accounts file, damaged, loads as the empty mapping. *)
Lemma json_load_never_raises_witness :
  Terminal._load_users loads_empty_object damaged_accounts
  = Ok (Terminal.set_users damaged_accounts []).
Proof.
  destruct (json_load_never_raises _ loads_empty_object
              (Terminal.disk damaged_accounts)
              (Terminal.USERS_FILE (Terminal.HOME damaged_accounts)) []
              loads_empty_object damaged_accounts)
    as (_ & _ & _ & _ & _ & H).
  apply (H "{ not json"%string JSONDecodeError); by_computation.
Defined.
